(** * Icarus: session scoring, daily index, intake bonus, load gauge,
      calendar grid, week start, sleep duration, continuity prefill and the
      intake panel, embedded from the client sources.

    Conventions of the embedding.

    - JavaScript numbers that are counts, minutes or ratings are [Z];
      quantities that pick up fractions (averages, the load gauge, a score
      returned by the API) are exact rationals [Q], with [Math.floor] as
      [Qfloor] and [Math.round] as [Qfloor (x + 1/2)].
    - [getSessionScore] is evaluated in IEEE-754 binary64 (the arithmetic of a
      JavaScript number) through [SpecFloat], because its inputs range over a
      finite set and the rounding can be checked exhaustively.
    - A [Date] is its millisecond time stamp; local time is UTC shifted by a
      fixed offset [tz] (no daylight-saving change inside the modelled
      interval), and the [YYYY-MM-DD] prefix of [toISOString()] is the UTC day
      number.
    - [null]/[undefined] fields are [option]; JavaScript truthiness is written
      out where the source relies on it. *)

From stdpp Require Import base gmap.
From Stdlib Require Import ZArith QArith Qround Qabs Qminmax List Bool Lia.
From Stdlib Require Import String Ascii DecimalString.
From Stdlib Require Import Floats.SpecFloat.
From Stdlib Require Import Sorting.Sorted Sorting.Permutation.
Import ListNotations.

Local Open Scope Z_scope.

(* ================================================================== *)
(** ** JavaScript numbers as binary64 values *)
(* ================================================================== *)

Module JSNumber.

Definition prec : Z := 53.
Definition emax : Z := 1024.

(** The number [m * 2^e], rounded to binary64. *)
Definition lit (m e : Z) : spec_float := binary_normalize prec emax m e false.

Definition of_Z (n : Z) : spec_float := lit n 0.

Definition mul : spec_float -> spec_float -> spec_float := SFmul prec emax.
Definition add : spec_float -> spec_float -> spec_float := SFadd prec emax.
Definition div : spec_float -> spec_float -> spec_float := SFdiv prec emax.

(** [Math.min] on two numbers neither of which is NaN. *)
Definition min (x y : spec_float) : spec_float := if SFltb y x then y else x.

(** The rational a finite binary64 value denotes. *)
Definition to_Q (x : spec_float) : option Q :=
  match x with
  | S754_zero _ => Some 0%Q
  | S754_finite s m e =>
      let mag := if e <? 0
                 then (inject_Z (Zpos m) / inject_Z (2 ^ (- e)))%Q
                 else inject_Z (Zpos m * 2 ^ e) in
      Some (if s then (- mag)%Q else mag)
  | S754_infinity _ | S754_nan => None
  end.

End JSNumber.

(* ================================================================== *)
(** ** Records received from the API *)
(* ================================================================== *)

Inductive WorkType := Deep | Shallow | Maintenance | Recovery | Unknown.

Definition WorkType_eqb (a b : WorkType) : bool :=
  match a, b with
  | Deep, Deep | Shallow, Shallow | Maintenance, Maintenance
  | Recovery, Recovery | Unknown, Unknown => true
  | _, _ => false
  end.

Record Context := {
  domain : string;
  project_name : string;
  activity_description : string;
  work_type : WorkType
}.

Record Outcome := {
  progress_rating : Z;
  quality_rating : Z;
  focus_quality : Z
}.

Record AfterState := {
  energy : Z;
  stress : Z;
  feel_tag : string
}.

(** A session as the client reads it: [start_time] already parsed to
    milliseconds ([new Date(s.start_time).getTime()]), [duration_minutes],
    [outcome] and [after] possibly [null]. *)
Record Session := {
  start_time : Z;
  context : Context;
  duration_minutes : option Z;
  outcome : option Outcome;
  after : option AfterState
}.

Record Sleep := {
  sleep_duration_minutes : Z;
  sleep_quality : Z
}.

(** [intake.water_count] and the three meal time stamps ([null] until the
    meal is logged, an ISO string afterwards). *)
Record Intake := {
  water_count : Z;
  breakfast_time : option string;
  lunch_time : option string;
  dinner_time : option string
}.

(** [s.outcome] used as a condition: an object is truthy, [null] is not. *)
Definition has_outcome (s : Session) : bool :=
  match outcome s with
  | Some _ => true
  | None => false
  end.

(** [s.outcome.focus_quality], read only on sessions that passed the
    [s.outcome] filter. *)
Definition outcome_focus (s : Session) : Z :=
  match outcome s with
  | Some o => focus_quality o
  | None => 0
  end.

(** [x || 0] on a number or [null]. *)
Definition or_zero (x : option Z) : Z :=
  match x with
  | Some n => n
  | None => 0
  end.

(** [Boolean(x)] on a string or [null]: the empty string is falsy. *)
Definition truthy_string (x : option string) : bool :=
  match x with
  | Some EmptyString => false
  | Some _ => true
  | None => false
  end.

(** [Math.round]: the nearest integer, halves towards plus infinity. *)
Definition Math_round (x : Q) : Z := Qfloor (x + (1 # 2)).

(* ================================================================== *)
(** ** Scoring engine *)
(* ================================================================== *)

Module Scoring.

Import JSNumber.

(** [getSessionScore] of the dashboard, the day inspector and the horizon
    strip (three identical copies). *)
Definition getSessionScore (s : Session) : spec_float :=
  match outcome s with
  | None => of_Z 0
  | Some o =>
      let score :=
        add (add (mul (of_Z (progress_rating o)) (of_Z 2))
                 (mul (of_Z (focus_quality o)) (lit 3 (-1))))
            (mul (of_Z (quality_rating o)) (of_Z 1)) in
      min (of_Z 100) (mul (div score (lit 45 (-1))) (of_Z 100))
  end.

(** The score formula as the specification writes it, over the rationals. *)
Definition score_formula (p f q : Z) : Q :=
  Qmin 100 ((inject_Z p * 2 + inject_Z f * (3 # 2) + inject_Z q * 1)
            / (45 # 2) * 100).

(** [calculateFallbackScore(sessions, sleep)] of the day inspector. *)
Definition calculateFallbackScore (sessions : list Session)
                                  (sleep : option Sleep) : Z :=
  match sessions, sleep with
  | [], None => 0
  | _, _ =>
      let score := 0 in
      let deepMins :=
        fold_left (fun acc s => acc + or_zero (duration_minutes s))
          (List.filter (fun s => WorkType_eqb (work_type (context s)) Deep)
                       sessions) 0 in
      let score := score + Z.min 60 (deepMins / 5) in
      let score :=
        match sleep with
        | Some sl =>
            let score :=
              if 420 <=? sleep_duration_minutes sl then score + 10
              else if 360 <=? sleep_duration_minutes sl then score + 5
              else score in
            if 4 <=? sleep_quality sl then score + 10 else score
        | None => score
        end in
      let sessionsWithOutcome := List.filter has_outcome sessions in
      let score :=
        if (0 <? Z.of_nat (List.length sessionsWithOutcome))
        then
          let total :=
            fold_left (fun acc s => acc + outcome_focus s)
                      sessionsWithOutcome 0 in
          let avgFocus :=
            (inject_Z total
             / inject_Z (Z.of_nat (List.length sessionsWithOutcome)))%Q in
          score + Qfloor (avgFocus * 4)
        else score in
      Z.min 100 score
  end.

(** [calculateIntakePoints(intake)] (dashboard, day inspector and analytics
    carry the same body). *)
Definition calculateIntakePoints (intake : option Intake) : Z :=
  match intake with
  | None => 0
  | Some i =>
      let points := 0 in
      let points := points + Z.min 5 (water_count i / 2) in
      let mealsLogged :=
        Z.of_nat (List.length (List.filter truthy_string
                    [breakfast_time i; lunch_time i; dinner_time i])) in
      let points := points + mealsLogged * 5 in
      Z.min 20 points
  end.

(** [$: extendedLiveScore = Math.min(100, liveScore + intakePoints)]. *)
Definition extendedLiveScore (liveScore : Q) (todayIntake : option Intake) : Q :=
  Qmin 100 (liveScore + inject_Z (calculateIntakePoints todayIntake)).

(** [calculateSystemLoad(sessions)] of the dashboard. *)
Definition calculateSystemLoad (sessions : list Session) : Z :=
  let loadMinutes :=
    fold_left
      (fun (loadMinutes : Q) s =>
         match outcome s with
         | None => loadMinutes
         | Some _ =>
             let duration := inject_Z (or_zero (duration_minutes s)) in
             match work_type (context s) with
             | Deep => loadMinutes + duration * 1
             | Shallow => loadMinutes + duration * (3 # 10)
             | Recovery => loadMinutes - duration * (1 # 2)
             | _ => loadMinutes
             end
         end)%Q
      sessions 0%Q in
  Z.max 0 (Z.min 100 (Math_round (loadMinutes / 240 * 100))).

End Scoring.

(* ================================================================== *)
(** ** Dates *)
(* ================================================================== *)

Module JSDate.

(** A [Date] object is the number of milliseconds since the epoch. *)
Definition Date := Z.

Definition MS_PER_DAY : Z := 86400000.


Section LocalTime.

(** Offset of local time from UTC, in milliseconds. *)
Variable tz : Z.

(** The local calendar day of [d], in days since 1970-01-01. *)
Definition localDay (d : Date) : Z := (d + tz) / MS_PER_DAY.

(** [d.getDay()]: 0 = Sunday .. 6 = Saturday; 1970-01-01 was a Thursday. *)
Definition getDay (d : Date) : Z := (localDay d + 4) mod 7.

(** [m.setDate(d.getDate() + k)] on a copy [m] of [d]: the same local
    time of day, [k] days later. *)
Definition addDays (d : Date) (k : Z) : Date := d + k * MS_PER_DAY.

(** [mondayOfWeek(d)] of the plain dashboard script. *)
Definition mondayOfWeek (d : Date) : Date :=
  let day := getDay d in
  let diff := (if day =? 0 then -6 else 1) - day in
  addDays d diff.

End LocalTime.

End JSDate.

(* ================================================================== *)
(** ** Sleep log form *)
(* ================================================================== *)

Module SleepLog.

(** [calculateDuration(s, e)]. The arguments are the values of two
    [datetime-local] inputs: the empty string ([None], falsy) or a time
    stamp that [new Date] parses ([Some ms]). *)
Definition calculateDuration (s e : option Z) : Z :=
  match s, e with
  | Some s, Some e =>
      let diff := e - s in
      Z.max 0 (Qfloor (inject_Z diff / 1000 / 60))
  | _, _ => 0
  end.

End SleepLog.

(* ================================================================== *)
(** ** Calendar heat map *)
(* ================================================================== *)

Module CalendarHeatmap.

Import JSDate.

(** One entry of the [data] property: [{ date, value }]. *)
Record Item := {
  item_date : Z;
  item_value : Q
}.

Record Cell := {
  date : Z;
  value : option Q;
  inFuture : bool
}.

(** [$: dataMap = (data || []).reduce((acc, item) => { acc[item.date] =
    item.value; return acc; }, {})]. *)
Definition dataMap (data : list Item) : gmap Z Q :=
  fold_left (fun acc item => <[item_date item := item_value item]> acc)
            data ∅.

Section Grid.

Variable tz : Z.
Variable data : list Item.





End Grid.

(** [getColor(cell)]; the result is [undefined] ([None]) when [type] is
    neither ['performance'] nor ['sleep']. *)
Definition getColor (type : string) (cell : Cell) : option string :=
  if inFuture cell then Some "bg-transparent border border-zinc-900/50"%string
  else match value cell with
  | None => Some "bg-zinc-900/50"%string
  | Some v =>
      if String.eqb type "performance" then
        if Qeq_bool v 0 then Some "bg-zinc-900/50"%string
        else if Qlt_le_dec v 30 then Some "bg-red-900/50 border border-red-900"%string
        else if Qlt_le_dec v 60 then Some "bg-emerald-900/60"%string
        else if Qlt_le_dec v 80 then Some "bg-emerald-600"%string
        else Some "bg-emerald-400 shadow-[0_0_8px_rgba(52,211,153,0.4)]"%string
      else if String.eqb type "sleep" then
        if Qeq_bool v 0 then Some "bg-zinc-900/50"%string
        else if Qlt_le_dec v 300 then Some "bg-red-600"%string
        else if Qlt_le_dec v 420 then Some "bg-orange-500"%string
        else Some "bg-violet-500"%string
      else None
  end.

End CalendarHeatmap.

(* ================================================================== *)
(** ** Sleep versus deep work *)
(* ================================================================== *)

Module SleepVsDeepwork.

(** One row of the series returned by [/sleep-vs-deepwork]. *)
Record Row := {
  row_date : string;
  sleep_minutes : option Z;
  deep_minutes : Z
}.

(** [String(n)] on an integer. *)
Definition String_of_Z (n : Z) : string := NilZero.string_of_int (Z.to_int n).

Fixpoint spaces (n : nat) : string :=
  match n with
  | O => EmptyString
  | S n' => String " "%char (spaces n')
  end.

(** [s.padStart(n, " ")]. *)
Definition padStart (n : nat) (s : string) : string :=
  (spaces (n - String.length s) ++ s)%string.

Definition newline : string := String (ascii_of_nat 10) EmptyString.

(** *** The plain dashboard script: [renderSleepVsDeepwork(data)] *)

Record Chart := {
  labels : list string;
  sleep_dataset : list (option Z);
  deep_dataset : list Z
}.

Definition textLine (row : Row) : string :=
  let d := row_date row in
  let s := match sleep_minutes row with
           | None => "  -"%string
           | Some m => padStart 4 (String_of_Z m)
           end in
  let w := padStart 4 (String_of_Z (deep_minutes row)) in
  (d ++ "   " ++ s ++ "  " ++ w)%string.

(** The chart configuration and the lines of the text table. *)
Definition renderSleepVsDeepwork (data : list Row) : Chart * list string :=
  let labels := List.map row_date data in
  let sleep := List.map sleep_minutes data in
  let deep := List.map deep_minutes data in
  let lines := "Date        Sleep  Deep"%string :: List.map textLine data in
  ({| labels := labels; sleep_dataset := sleep; deep_dataset := deep |},
   lines).

(** [lines.join("\n")], the text content of the table. *)
Definition joinLines (lines : list string) : string :=
  String.concat newline lines.

(** *** The analytics view: the [{#each sleepVsWork as day}] block *)

(** [scaleY(mins, maxMins)]; [!mins] holds for [null] and for [0]. *)
Definition scaleY (mins : option Z) (maxMins : Z) : Q :=
  match mins with
  | None => 0%Q
  | Some 0 => 0%Q
  | Some m => (inject_Z m / inject_Z maxMins * 100)%Q
  end.

(** [Math.max(...xs, floor)]. *)
Definition maxWith (xs : list Z) (floor : Z) : Z :=
  fold_right Z.max floor xs.

(** What one column of the chart shows: the height of the deep-work bar,
    the sleep dot (its height, or no dot) and the three tool-tip lines. *)
Record Column := {
  bar_height : Q;
  sleep_dot : option Q;
  tip_date : string;
  tip_sleep : Z;
  tip_deep : Z
}.

Definition renderColumn (maxSleep maxDeep : Z) (day : Row) : Column :=
  {| bar_height := scaleY (Some (deep_minutes day)) maxDeep;
     sleep_dot :=
       match sleep_minutes day with
       | None => None
       | Some 0 => None
       | Some m => Some (scaleY (Some m) maxSleep)
       end;
     tip_date := row_date day;
     tip_sleep := or_zero (sleep_minutes day);
     tip_deep := deep_minutes day |}.

(** The chart body; [None] stands for the "Insufficient data" placeholder
    shown when the series is empty. *)
Definition renderAnalytics (sleepVsWork : list Row) : option (list Column) :=
  match sleepVsWork with
  | [] => None
  | _ =>
      let maxSleep :=
        maxWith (List.map (fun d => or_zero (sleep_minutes d)) sleepVsWork) 600 in
      let maxDeep :=
        maxWith (List.map deep_minutes sleepVsWork) 300 in
      Some (List.map (renderColumn maxSleep maxDeep) sleepVsWork)
  end.

End SleepVsDeepwork.

(* ================================================================== *)
(** ** Dashboard: continuity of the biological state *)
(* ================================================================== *)

Module Dashboard.

Record NewSession := {
  ns_domain : string;
  ns_project_name : string;
  ns_activity_description : string;
  ns_work_type : WorkType;
  planned_duration_min : Z;
  energy_before : Z;
  stress_before : Z;
  resistance_before : Z
}.


(** The part of the component state the start form reads and writes. *)
Record State := {
  todaySessions : list Session;
  newSession : NewSession;
  pendingTaskId : option Z;
  showStartModal : bool
}.

(** The comparator of [refreshData]:
    [(a, b) => new Date(b.start_time).getTime() - new Date(a.start_time).getTime()]. *)
Definition byStartDesc (a b : Session) : Z := start_time b - start_time a.

(** [Array.prototype.sort] is stable; insertion from the right is. *)
Fixpoint insertBy (cmp : Session -> Session -> Z) (x : Session)
                  (l : list Session) : list Session :=
  match l with
  | [] => [x]
  | y :: l' => if cmp x y <=? 0 then x :: y :: l' else y :: insertBy cmp x l'
  end.

Definition sortBy (cmp : Session -> Session -> Z) (l : list Session)
  : list Session :=
  fold_right (insertBy cmp) [] l.

(** The assignment to [todaySessions] in [refreshData]. *)
Definition refreshData (sessions : list Session) (st : State) : State :=
  {| todaySessions := sortBy byStartDesc sessions;
     newSession := newSession st;
     pendingTaskId := pendingTaskId st;
     showStartModal := showStartModal st |}.

Definition has_after (s : Session) : bool :=
  match after s with
  | Some _ => true
  | None => false
  end.

(** [$: lastCompleted = todaySessions.find(s => s.outcome && s.after)]. *)
Definition lastCompleted (st : State) : option Session :=
  List.find (fun s => has_outcome s && has_after s) (todaySessions st).

Definition set_bio (ns : NewSession) (e s : Z) : NewSession :=
  {| ns_domain := ns_domain ns;
     ns_project_name := ns_project_name ns;
     ns_activity_description := ns_activity_description ns;
     ns_work_type := ns_work_type ns;
     planned_duration_min := planned_duration_min ns;
     energy_before := e;
     stress_before := s;
     resistance_before := resistance_before ns |}.

(** [prefillBioState()]. *)
Definition prefillBioState (st : State) : State :=
  match lastCompleted st with
  | Some lc =>
      match after lc with
      | Some a =>
          {| todaySessions := todaySessions st;
             newSession := set_bio (newSession st) (energy a) (stress a);
             pendingTaskId := pendingTaskId st;
             showStartModal := showStartModal st |}
      | None => st
      end
  | None => st
  end.

(** The "start session" button:
    [pendingTaskId = null; prefillBioState(); showStartModal = true]. *)
Definition openStartForm (st : State) : State :=
  let st := {| todaySessions := todaySessions st;
               newSession := newSession st;
               pendingTaskId := None;
               showStartModal := showStartModal st |} in
  let st := prefillBioState st in
  {| todaySessions := todaySessions st;
     newSession := newSession st;
     pendingTaskId := pendingTaskId st;
     showStartModal := true |}.


End Dashboard.

(* ================================================================== *)
(** ** Biological engine: the intake panel *)
(* ================================================================== *)

Module BiologicalState.

Inductive Meal := breakfast | lunch | dinner.

(** The three shapes [confirmMode] takes: [{ type: 'water', action: 'add' }],
    [{ type: 'water', action: 'remove' }] and
    [{ type: 'meal', value, action: 'add' }]. *)
Inductive ConfirmMode :=
| WaterAdd
| WaterRemove
| MealAdd (value : Meal).

Record State := {
  intake : Intake;
  confirmMode : option ConfirmMode
}.

(** The component's initial [intake] and [confirmMode]. *)
Definition init : State :=
  {| intake := {| water_count := 0; breakfast_time := None;
                  lunch_time := None; dinner_time := None |};
     confirmMode := None |}.

Definition set_water (i : Intake) (n : Z) : Intake :=
  {| water_count := n;
     breakfast_time := breakfast_time i;
     lunch_time := lunch_time i;
     dinner_time := dinner_time i |}.

(** [intake[`${type}_time`]]. *)
Definition meal_time (i : Intake) (type : Meal) : option string :=
  match type with
  | breakfast => breakfast_time i
  | lunch => lunch_time i
  | dinner => dinner_time i
  end.

Definition set_meal_time (i : Intake) (type : Meal) (t : string) : Intake :=
  match type with
  | breakfast => {| water_count := water_count i; breakfast_time := Some t;
                    lunch_time := lunch_time i; dinner_time := dinner_time i |}
  | lunch => {| water_count := water_count i; breakfast_time := breakfast_time i;
                lunch_time := Some t; dinner_time := dinner_time i |}
  | dinner => {| water_count := water_count i; breakfast_time := breakfast_time i;
                 lunch_time := lunch_time i; dinner_time := Some t |}
  end.

Definition set_mode (st : State) (m : option ConfirmMode) : State :=
  {| intake := intake st; confirmMode := m |}.

(** [requestWater()]. *)
Definition requestWater (st : State) : State :=
  if 8 <=? water_count (intake st) then st
  else set_mode st (Some WaterAdd).

(** [requestRemoveWater()]. *)
Definition requestRemoveWater (st : State) : State :=
  if water_count (intake st) <=? 0 then st
  else set_mode st (Some WaterRemove).

(** [requestMeal(type)]. *)
Definition requestMeal (type : Meal) (st : State) : State :=
  if truthy_string (meal_time (intake st) type) then st
  else set_mode st (Some (MealAdd type)).

(** How the promise of an [async] handler settles. *)
Inductive Settled := Resolved | Rejected.

(** [confirmAction()]. [post_ok] tells whether the awaited [post] resolves
    ([handleResponse] throws on a response that is not ok, and [fetch]
    rejects when the server cannot be reached); [now] is
    [new Date().toISOString()]. When the [post] rejects, the handler stops
    at the [await]: the assignments made before it stay, and
    [confirmMode = null] is not reached. *)
Definition confirmAction (post_ok : bool) (now : string) (st : State)
  : State * Settled :=
  match confirmMode st with
  | None => (st, Resolved)
  | Some WaterAdd =>
      let st := {| intake := set_water (intake st) (water_count (intake st) + 1);
                   confirmMode := confirmMode st |} in
      if post_ok then (set_mode st None, Resolved) else (st, Rejected)
  | Some WaterRemove =>
      let st := {| intake := set_water (intake st) (water_count (intake st) - 1);
                   confirmMode := confirmMode st |} in
      (set_mode st None, Resolved)
  | Some (MealAdd type) =>
      let st := {| intake := set_meal_time (intake st) type now;
                   confirmMode := confirmMode st |} in
      if post_ok then (set_mode st None, Resolved) else (st, Rejected)
  end.

(** What the operator can do on the panel: the water and meal buttons, and
    the two buttons of the confirmation overlay. *)
Inductive Event :=
| ClickWater
| ClickRemoveWater
| ClickMeal (type : Meal)
| ClickCancel
| ClickConfirm (post_ok : bool) (now : string).

Definition step (st : State) (ev : Event) : State :=
  match ev with
  | ClickWater => requestWater st
  | ClickRemoveWater => requestRemoveWater st
  | ClickMeal type => requestMeal type st
  | ClickCancel => set_mode st None
  | ClickConfirm post_ok now => fst (confirmAction post_ok now st)
  end.

Definition run (st : State) (evs : list Event) : State :=
  fold_left step evs st.

(** Every confirmation in the trace has its [post] resolve. *)
Definition posts_resolve (ev : Event) : bool :=
  match ev with
  | ClickConfirm post_ok _ => post_ok
  | _ => true
  end.

(** The water sub-bonus of [calculateIntakePoints]. *)
Definition waterPoints (i : Intake) : Z := Z.min 5 (water_count i / 2).

End BiologicalState.

(* ================================================================== *)
(** ** The specification's formulas, as the specification words them *)
(* ================================================================== *)

Module Spec.

Fixpoint sumZ (l : list Z) : Z :=
  match l with
  | [] => 0
  | x :: l' => x + sumZ l'
  end.

(** Minutes of the day's sessions whose work type is Deep. *)
Definition total_deep_work_minutes (sessions : list Session) : Z :=
  sumZ (List.map (fun s => or_zero (duration_minutes s))
          (List.filter (fun s => WorkType_eqb (work_type (context s)) Deep)
                       sessions)).

(** Output component: five deep-work minutes per point, at most 60. *)
Definition output_component (sessions : list Session) : Z :=
  Z.min 60 (total_deep_work_minutes sessions / 5).

(** Input component: the duration bonus and, independently, the quality
    bonus; nothing without a sleep record. *)
Definition input_component (sleep : option Sleep) : Z :=
  match sleep with
  | None => 0
  | Some sl =>
      (if 420 <=? sleep_duration_minutes sl then 10
       else if 360 <=? sleep_duration_minutes sl then 5 else 0)
      + (if 4 <=? sleep_quality sl then 10 else 0)
  end.

(** Focus qualities of the rated sessions (those with an outcome). *)
Definition rated_focus (sessions : list Session) : list Z :=
  List.map outcome_focus (List.filter has_outcome sessions).

(** Efficiency component: the floor of four times the mean focus quality
    of the rated sessions; nothing when no session is rated. *)
Definition efficiency_component (sessions : list Session) : Z :=
  match rated_focus sessions with
  | [] => 0
  | fs => Qfloor (inject_Z (sumZ fs) / inject_Z (Z.of_nat (List.length fs)) * 4)
  end.

Definition daily_index (sessions : list Session) (sleep : option Sleep) : Z :=
  Z.min 100 (output_component sessions + input_component sleep
             + efficiency_component sessions).

(** Number of meals logged among breakfast, lunch and dinner. *)
Definition meals_logged (i : Intake) : Z :=
  (if truthy_string (breakfast_time i) then 1 else 0)
  + (if truthy_string (lunch_time i) then 1 else 0)
  + (if truthy_string (dinner_time i) then 1 else 0).

Definition intake_bonus (i : Intake) : Z :=
  Z.min 20 (Z.min 5 (water_count i / 2) + 5 * meals_logged i).

(** The minutes one session adds to the load gauge. *)
Definition load_weight (s : Session) : Q :=
  let duration := inject_Z (or_zero (duration_minutes s)) in
  match work_type (context s) with
  | Deep => duration * 1
  | Shallow => duration * (3 # 10)
  | Recovery => duration * (- (1 # 2))
  | _ => 0
  end.

Fixpoint sumQ (l : list Q) : Q :=
  match l with
  | [] => 0
  | x :: l' => x + sumQ l'
  end.

(** Accumulated load minutes of a list of sessions. *)
Definition accumulated_load (sessions : list Session) : Q :=
  sumQ (List.map load_weight sessions).

(** Accumulated minutes over 240, as a rounded percentage within 0..100. *)
Definition load_percent (minutes : Q) : Z :=
  Z.max 0 (Z.min 100 (Math_round (minutes / 240 * 100))).

End Spec.


(* ================================================================== *)
(** ** Test sessions and checkers *)
(* ================================================================== *)

(** A session that carries the outcome [o] and nothing else of interest. *)
Definition sessionWith (o : Outcome) : Session :=
  {| start_time := 0;
     context := {| domain := EmptyString; project_name := EmptyString;
                   activity_description := EmptyString; work_type := Deep |};
     duration_minutes := None;
     outcome := Some o;
     after := None |}.

Definition ratings : list Z := [1; 2; 3; 4; 5].

(** The binary64 score of the ratings is a finite number within [2^-46] of
    the rational formula. *)
Definition close_to_formula (p f q : Z) : bool :=
  match JSNumber.to_Q (Scoring.getSessionScore
                (sessionWith {| progress_rating := p; quality_rating := q;
                                focus_quality := f |})) with
  | Some r => Qle_bool (Qabs (r - Scoring.score_formula p f q)) (1 # 70368744177664)
  | None => false
  end.


Definition plainContext (w : WorkType) : Context :=
  {| domain := EmptyString; project_name := EmptyString;
     activity_description := EmptyString; work_type := w |}.

(** An ended, rated session of work type [w] lasting [d] minutes. *)
Definition ratedSession (w : WorkType) (d : Z) : Session :=
  {| start_time := 0;
     context := plainContext w;
     duration_minutes := Some d;
     outcome := Some {| progress_rating := 4; quality_rating := 4;
                        focus_quality := 4 |};
     after := Some {| energy := 7; stress := 3; feel_tag := EmptyString |} |}.

(** A session record of work type [w] that carries a duration of [d]
    minutes and no outcome. *)
Definition unratedSession (w : WorkType) (d : Z) : Session :=
  {| start_time := 0;
     context := plainContext w;
     duration_minutes := Some d;
     outcome := None;
     after := None |}.

(** One iteration of the [forEach] in [calculateSystemLoad]. *)
Definition loadStep (loadMinutes : Q) (s : Session) : Q :=
  match outcome s with
  | None => loadMinutes
  | Some _ =>
      let duration := inject_Z (or_zero (duration_minutes s)) in
      match work_type (context s) with
      | Deep => loadMinutes + duration * 1
      | Shallow => loadMinutes + duration * (3 # 10)
      | Recovery => loadMinutes - duration * (1 # 2)
      | _ => loadMinutes
      end
  end%Q.



(** Noon UTC on Monday 2026-11-02, day 20759 of the epoch. *)
Definition monday_noon : JSDate.Date := 20759 * JSDate.MS_PER_DAY + 43200000.


(** The row with a missing sleep entry replaced by a recorded zero. *)
Definition zeroFill (row : SleepVsDeepwork.Row) : SleepVsDeepwork.Row :=
  {| SleepVsDeepwork.row_date := SleepVsDeepwork.row_date row;
     SleepVsDeepwork.sleep_minutes :=
       Some (or_zero (SleepVsDeepwork.sleep_minutes row));
     SleepVsDeepwork.deep_minutes := SleepVsDeepwork.deep_minutes row |}.

(** A day with thirty deep-work minutes and no sleep record, and the same
    day with a recorded sleep of zero minutes. *)
Definition day_sleep_absent : SleepVsDeepwork.Row :=
  {| SleepVsDeepwork.row_date := "2025-01-01";
     SleepVsDeepwork.sleep_minutes := None;
     SleepVsDeepwork.deep_minutes := 30 |}.

Definition day_sleep_zero : SleepVsDeepwork.Row :=
  {| SleepVsDeepwork.row_date := "2025-01-01";
     SleepVsDeepwork.sleep_minutes := Some 0;
     SleepVsDeepwork.deep_minutes := 30 |}.


(** Two sessions of one day: an early one ended with energy 5 and stress 6
    and a later one ended with energy 4 and stress 8, plus the session that
    is still running. *)
Definition morning_session : Session :=
  {| start_time := 1000;
     context := plainContext Deep;
     duration_minutes := Some 90;
     outcome := Some {| progress_rating := 4; quality_rating := 4;
                        focus_quality := 4 |};
     after := Some {| energy := 5; stress := 6; feel_tag := "calm" |} |}.

Definition afternoon_session : Session :=
  {| start_time := 9000;
     context := plainContext Shallow;
     duration_minutes := Some 30;
     outcome := Some {| progress_rating := 3; quality_rating := 3;
                        focus_quality := 2 |};
     after := Some {| energy := 4; stress := 8; feel_tag := "tired" |} |}.

Definition running_session : Session :=
  {| start_time := 12000;
     context := plainContext Deep;
     duration_minutes := None;
     outcome := None;
     after := None |}.

Definition blank_dashboard : Dashboard.State :=
  {| Dashboard.todaySessions := [];
     Dashboard.newSession :=
       {| Dashboard.ns_domain := "Work";
          Dashboard.ns_project_name := EmptyString;
          Dashboard.ns_activity_description := EmptyString;
          Dashboard.ns_work_type := Deep;
          Dashboard.planned_duration_min := 90;
          Dashboard.energy_before := 7;
          Dashboard.stress_before := 3;
          Dashboard.resistance_before := 2 |};
     Dashboard.pendingTaskId := None;
     Dashboard.showStartModal := false |}.


(** The order of the dashboard's list: the later start first. *)
Definition laterFirst (a b : Session) : Prop := start_time b <= start_time a.

(** Seven glasses logged and confirmed, the server answering each time. *)
Definition seven_glasses : list BiologicalState.Event :=
  List.concat (repeat [BiologicalState.ClickWater;
                  BiologicalState.ClickConfirm true "2025-01-01T09:00:00.000Z"]
                 7).

(** The eighth glass is requested; the [post] of the confirmation fails
    twice (the overlay stays open) and the third confirmation goes through. *)
Definition eighth_glass_retried : list BiologicalState.Event :=
  [BiologicalState.ClickWater;
   BiologicalState.ClickConfirm false "2025-01-01T18:00:00.000Z";
   BiologicalState.ClickConfirm false "2025-01-01T18:00:05.000Z";
   BiologicalState.ClickConfirm true "2025-01-01T18:00:10.000Z"].

(** What the guard of [requestWater] keeps true between two events, as long
    as every confirmation closes the overlay. *)
Definition panel_inv (st : BiologicalState.State) : Prop :=
  water_count (BiologicalState.intake st) <= 8
  /\ (BiologicalState.confirmMode st = Some BiologicalState.WaterAdd ->
      water_count (BiologicalState.intake st) < 8).

(* ================================================================== *)
(** ** Local clock fields of a date *)
(* ================================================================== *)

Module JSClock.

Import JSDate.

Section LocalClock.

Variable tz : Z.

(** Milliseconds elapsed since the local midnight before [d]. *)
Definition msOfDay (d : Date) : Z := (d + tz) mod MS_PER_DAY.

(** [d.getHours()] and [d.getMinutes()]. *)
Definition getHours (d : Date) : Z := msOfDay d / 3600000.
Definition getMinutes (d : Date) : Z := (msOfDay d mod 3600000) / 60000.

(** [d.setHours(h, m, s, ms)]: the given time of day on the local day of
    [d]. *)
Definition setHours (d : Date) (h m s ms : Z) : Date :=
  d - msOfDay d + h * 3600000 + m * 60000 + s * 1000 + ms.

End LocalClock.

End JSClock.

(* ================================================================== *)
(** ** A stable sort with a JavaScript comparator *)
(* ================================================================== *)

Module JSArray.

Section Sort.

Context {A : Type}.
Variable cmp : A -> A -> Z.

(** [x] goes before the first element it does not have to follow. *)
Fixpoint insert (x : A) (l : list A) : list A :=
  match l with
  | [] => [x]
  | y :: l' => if cmp x y <=? 0 then x :: y :: l' else y :: insert x l'
  end.

(** [l.sort(cmp)], as a stable insertion sort. *)
Definition sort (l : list A) : list A := fold_right insert [] l.

End Sort.

End JSArray.

(* ================================================================== *)
(** ** Duration and ticker texts *)
(* ================================================================== *)

Module Formatting.

Import SleepVsDeepwork.

Fixpoint zeros (n : nat) : string :=
  match n with
  | O => EmptyString
  | S n' => String "0"%char (zeros n')
  end.

(** [s.padStart(n, '0')]. *)
Definition padStart0 (n : nat) (s : string) : string :=
  (zeros (n - String.length s) ++ s)%string.

(** [`${h}h ${m}m`]. *)
Definition hm (h m : Z) : string :=
  (String_of_Z h ++ "h " ++ String_of_Z m ++ "m")%string.

(** [formatDurationHM(mins)] of the dashboard and of the intake panel;
    [mins] is a number or [null], and [!mins] holds for [null] and 0. *)
Definition formatDurationHM (mins : option Z) : string :=
  match mins with
  | None => "0h 0m"%string
  | Some 0 => "0h 0m"%string
  | Some mins => hm (mins / 60) (Z.rem mins 60)
  end.

(** [formatDuration(mins)] of the sleep form (no guard). *)
Definition formatDuration (mins : Z) : string :=
  hm (mins / 60) (Z.rem mins 60).

(** [formatTicker(totalSeconds)]. *)
Definition formatTicker (totalSeconds : Z) : string :=
  let h := totalSeconds / 3600 in
  let m := Z.rem totalSeconds 3600 / 60 in
  let s := Z.rem totalSeconds 60 in
  let hours := if 0 <? h then (String_of_Z h ++ ":")%string else EmptyString in
  (hours ++ padStart0 2 (String_of_Z m) ++ ":" ++ padStart0 2 (String_of_Z s))%string.

End Formatting.

(* ================================================================== *)
(** ** Biological engine: hydration and meal status *)
(* ================================================================== *)

Module Engine.

Import BiologicalState.

Definition WAKE_HOUR : Z := 7.
Definition WATER_INTERVAL_HOURS : Q := 3 # 2.

Definition MEAL_DEADLINES (m : Meal) : Z :=
  match m with
  | breakfast => 10
  | lunch => 14
  | dinner => 21
  end.

Inductive Status := ok | warn | crit.

(** [$: hoursAwake = Math.max(0, now.getHours() - WAKE_HOUR +
    now.getMinutes() / 60)]. *)
Definition hoursAwake (hours minutes : Z) : Q :=
  Qmax 0 (inject_Z hours - inject_Z WAKE_HOUR + inject_Z minutes / 60).

(** [$: expectedWater = Math.floor(hoursAwake / WATER_INTERVAL_HOURS)]. *)
Definition expectedWater (hours minutes : Z) : Z :=
  Qfloor (hoursAwake hours minutes / WATER_INTERVAL_HOURS).

(** [getWaterStatus(current, expected)], with the [hoursAwake] it reads
    from the component made an argument. *)
Definition getWaterStatus (hoursAwake : Q) (current expected : Z) : Status :=
  if Qle_bool hoursAwake (1 # 2) then ok
  else if expected <=? current then ok
  else if current =? expected - 1 then warn
  else crit.

(** [$: waterStatus = getWaterStatus(intake.water_count, expectedWater)]
    when the clock shows [hours]:[minutes]. *)
Definition waterStatus (i : Intake) (hours minutes : Z) : Status :=
  getWaterStatus (hoursAwake hours minutes) (water_count i)
                 (expectedWater hours minutes).

(** [getMealStatus(data, currentHour)], one status per meal. *)
Definition getMealStatus (data : Intake) (currentHour : Z) (m : Meal) : Status :=
  if negb (truthy_string (meal_time data m)) && (MEAL_DEADLINES m <=? currentHour)
  then crit else ok.

End Engine.

(* ================================================================== *)
(** ** Timeline bars of the dashboard and of the day inspector *)
(* ================================================================== *)

Module Timeline.

Import JSDate JSClock.

(** The two percentages of a bar, before the [%] sign is appended. *)
Record Position := {
  pos_left : Q;
  pos_width : Q
}.

(** The bed and wake times of a sleep record, parsed by [new Date]. *)
Record SleepTimes := {
  sleep_start : Date;
  sleep_end : Date
}.

Section Bars.

Variable tz : Z.

(** [start.getHours() * 60 + start.getMinutes()]. *)
Definition startMinutes (start : Date) : Z :=
  getHours tz start * 60 + getMinutes tz start.

(** [x] used as a condition, for a number or [null]. *)
Definition truthy_number (x : option Z) : bool :=
  match x with
  | Some 0 => false
  | Some _ => true
  | None => false
  end.

(** [getPosition(session)] of the dashboard; [now] is the component's
    clock and [is_finished] the session's flag of that name. *)
Definition getPosition (now : Date) (is_finished : bool) (session : Session)
  : Position :=
  let start := start_time session in
  let startMins := startMinutes start in
  let duration := duration_minutes session in
  let duration :=
    if negb (truthy_number duration) && negb is_finished
    then Some (Qfloor (inject_Z (now - start) / 60000))
    else duration in
  let left := (inject_Z startMins / 1440 * 100)%Q in
  let width := (inject_Z (or_zero duration) / 1440 * 100)%Q in
  {| pos_left := left; pos_width := Qmax (1 # 2) width |}.

(** [getPosition(session)] of the day inspector and of the horizon strip:
    a missing or zero duration shows as 60 minutes. *)
Definition getPositionInspector (session : Session) : Position :=
  let start := start_time session in
  let startMins := startMinutes start in
  let duration :=
    if truthy_number (duration_minutes session)
    then or_zero (duration_minutes session) else 60 in
  let left := (inject_Z startMins / 1440 * 100)%Q in
  let width := (inject_Z duration / 1440 * 100)%Q in
  {| pos_left := left; pos_width := Qmax (1 # 2) width |}.

(** [getSleepPosition(sleep)] of the dashboard; [today] is the day number
    of the dashboard's [today] string, which [new Date(today)] reads as
    midnight UTC. *)
Definition getSleepPosition (today : Z) (sleep : option SleepTimes)
  : option Position :=
  match sleep with
  | None => None
  | Some sleep =>
      let sStart := sleep_start sleep in
      let sEnd := sleep_end sleep in
      let chartDate := today * MS_PER_DAY in
      let dayStart := setHours tz chartDate 0 0 0 0 in
      let dayEnd := setHours tz chartDate 23 59 59 999 in
      let overlapStart := if sStart <? dayStart then dayStart else sStart in
      let overlapEnd := if dayEnd <? sEnd then dayEnd else sEnd in
      if overlapEnd <=? overlapStart then None
      else
        let startMins := startMinutes overlapStart in
        let durationMins :=
          (inject_Z (overlapEnd - overlapStart) / 1000 / 60)%Q in
        let left := (inject_Z startMins / 1440 * 100)%Q in
        let width := (durationMins / 1440 * 100)%Q in
        Some {| pos_left := left; pos_width := width |}
  end.

End Bars.

End Timeline.

(* ================================================================== *)
(** ** Dashboard: the recovery protocol *)
(* ================================================================== *)

Module Recovery.

Import Dashboard.

(** [handleRestStart()] up to its [await]: the [newSession] object it
    hands to [sessionStore.start]. *)
Definition handleRestStart (restActivity : string) (st : State) : NewSession :=
  let st1 := prefillBioState st in
  let ns := newSession st1 in
  let ns :=
    {| ns_domain := "Health";
       ns_project_name := "System Recovery";
       ns_activity_description := restActivity;
       ns_work_type := Recovery;
       planned_duration_min := planned_duration_min ns;
       energy_before := energy_before ns;
       stress_before := stress_before ns;
       resistance_before := resistance_before ns |} in
  match lastCompleted st1 with
  | None => set_bio ns 3 7
  | Some _ => ns
  end.

End Recovery.

(* ================================================================== *)
(** ** Day inspector: computed metrics *)
(* ================================================================== *)

Module Inspector.

(** [$: deepWorkMinutes] and [$: totalWorkMinutes]. *)
Definition deepWorkMinutes (dailySessions : list Session) : Z :=
  fold_left (fun acc s => acc + or_zero (duration_minutes s))
    (List.filter (fun s => WorkType_eqb (work_type (context s)) Deep)
                 dailySessions) 0.

Definition totalWorkMinutes (dailySessions : list Session) : Z :=
  fold_left (fun acc s => acc + or_zero (duration_minutes s)) dailySessions 0.

(** [$: deepWorkRatio = totalWorkMinutes ?
    Math.round((deepWorkMinutes / totalWorkMinutes) * 100) : 0]. *)
Definition deepWorkRatio (dailySessions : list Session) : Z :=
  if totalWorkMinutes dailySessions =? 0 then 0
  else Math_round (inject_Z (deepWorkMinutes dailySessions)
                   / inject_Z (totalWorkMinutes dailySessions) * 100).

(** [$: avgFocusQuality]. *)
Definition avgFocusQuality (dailySessions : list Session) : Q :=
  let sessionsWithOutcome := List.filter has_outcome dailySessions in
  let total :=
    fold_left (fun acc s => acc + outcome_focus s) sessionsWithOutcome 0 in
  if 0 <? Z.of_nat (List.length sessionsWithOutcome)
  then (inject_Z total / inject_Z (Z.of_nat (List.length sessionsWithOutcome)))%Q
  else 0%Q.

(** The comparator of [loadDayDetails]: earliest start first. *)
Definition byStartAsc (a b : Session) : Z := start_time a - start_time b.

(** [domainMap[domain] = (domainMap[domain] || 0) + mins] on an object
    whose keys are domain names (none of them a number, so that
    [Object.entries] lists them in the order in which they were first
    written). *)
Fixpoint addDomainMinutes (domainMap : list (string * Z)) (domain : string)
                          (mins : Z) : list (string * Z) :=
  match domainMap with
  | [] => [(domain, 0 + mins)]
  | (name, minutes) :: rest =>
      if String.eqb name domain then (name, minutes + mins) :: rest
      else (name, minutes) :: addDomainMinutes rest domain mins
  end.

(** [getDomainMinutes(sessions)]: the [{ name, minutes }] entries, largest
    first. *)
Definition getDomainMinutes (sessions : list Session) : list (string * Z) :=
  let domainMap :=
    fold_left (fun domainMap s =>
                 addDomainMinutes domainMap (domain (context s))
                                  (or_zero (duration_minutes s)))
              sessions [] in
  JSArray.sort (fun a b => snd b - snd a) domainMap.

End Inspector.

(* ================================================================== *)
(** ** Analytics: date ranges and the extended score *)
(* ================================================================== *)

Module Analytics.

Import JSDate.


Section Ranges.

(** [d.getDate()], the day of the month in local time. Only differences of
    two of its values are used. *)
Variable getDate : Date -> Z.





End Ranges.

(** The tail of [loadIntakeData]: [dailyIntakes] holds one intake record
    per date of the range, or [null] where the request failed. *)
Definition avgIntakePoints (dailyIntakes : list (option Intake)) : Q :=
  let totalIntakePoints :=
    fold_left (fun sum intake =>
                 sum + match intake with
                       | Some i => Scoring.calculateIntakePoints (Some i)
                       | None => 0
                       end)
              dailyIntakes 0 in
  if 0 <? Z.of_nat (List.length dailyIntakes)
  then (inject_Z totalIntakePoints
        / inject_Z (Z.of_nat (List.length dailyIntakes)))%Q
  else 0%Q.

Definition extendedDailyScore (dailyScore : Q)
                              (dailyIntakes : list (option Intake)) : Z :=
  Z.min 100 (Math_round (dailyScore + avgIntakePoints dailyIntakes)).

End Analytics.

(* ================================================================== *)
(** ** Checkers over the rating scale *)
(* ================================================================== *)

(** The binary64 score of a session rated [p], [f], [q]. *)
Definition score64 (p f q : Z) : spec_float :=
  Scoring.getSessionScore
    (sessionWith {| progress_rating := p; quality_rating := q;
                    focus_quality := f |}).

(** The score is a finite number between 20 and 100. *)
Definition score_in_range (p f q : Z) : bool :=
  match JSNumber.to_Q (score64 p f q) with
  | Some r => Qle_bool 20 r && Qle_bool r 100
  | None => false
  end.

Definition score_le (a b : spec_float) : bool :=
  match JSNumber.to_Q a, JSNumber.to_Q b with
  | Some x, Some y => Qle_bool x y
  | _, _ => false
  end.

(** No rating of the scale that is at least [p], [f], [q] scores less. *)
Definition score_monotone_from (p f q : Z) : bool :=
  forallb (fun p' =>
    forallb (fun f' =>
      forallb (fun q' =>
        if (p <=? p') && (f <=? f') && (q <=? q')
        then score_le (score64 p f q) (score64 p' f' q') else true)
      ratings) ratings) ratings.

(** The minutes a domain entry list adds up to. *)
Definition entriesTotal (entries : list (string * Z)) : Z :=
  Spec.sumZ (List.map snd entries).

(** The intake points of one fetched record, [null] counting for nothing. *)
Definition pointsOrZero (intake : option Intake) : Z :=
  match intake with
  | Some i => Scoring.calculateIntakePoints (Some i)
  | None => 0
  end.

(** A fetched intake record, if there is one, has no negative glass count. *)
Definition water_recorded_nonneg (x : option Intake) : Prop :=
  match x with
  | Some i => 0 <= water_count i
  | None => True
  end.

(** The minutes and seconds fields of the ticker are two characters wide. *)
Definition two_wide (x : Z) : bool :=
  Nat.eqb (String.length (Formatting.padStart0 2 (SleepVsDeepwork.String_of_Z x))) 2.

(** The numbers [0 .. n-1]. *)
Definition upto (n : nat) : list Z := List.map Z.of_nat (seq 0 n).

Definition Status_eqb (a b : Engine.Status) : bool :=
  match a, b with
  | Engine.ok, Engine.ok | Engine.warn, Engine.warn
  | Engine.crit, Engine.crit => true
  | _, _ => false
  end.

(** With eight glasses logged, the hydration status at [hours]:[minutes]
    is ok before 20:30, a warning until 22:00 and critical from then on;
    and at most eleven glasses are expected. *)
Definition full_counter_check (hours minutes : Z) : bool :=
  Status_eqb
    (Engine.getWaterStatus (Engine.hoursAwake hours minutes) 8
                           (Engine.expectedWater hours minutes))
    (if 60 * hours + minutes <? 1230 then Engine.ok
     else if 60 * hours + minutes <? 1320 then Engine.warn
     else Engine.crit)
  && (0 <=? Engine.expectedWater hours minutes)
  && (Engine.expectedWater hours minutes <=? 11).

(** The counter is not negative, and a pending removal has a glass to
    remove. *)
Definition water_nonneg_inv (st : BiologicalState.State) : Prop :=
  0 <= water_count (BiologicalState.intake st)
  /\ (BiologicalState.confirmMode st = Some BiologicalState.WaterRemove ->
      0 < water_count (BiologicalState.intake st)).

(** The order a comparator asks for: [x] may stand before [y]. *)
Definition mayPrecede {A : Type} (cmp : A -> A -> Z) (x y : A) : Prop :=
  cmp x y <= 0.

(** The order of the day inspector's list: the earlier start first. *)
Definition earlierFirst (a b : Session) : Prop := start_time a <= start_time b.



(** The order of the domain entries: the larger number of minutes first. *)
Definition moreMinutesFirst (a b : string * Z) : Prop := snd b <= snd a.

(** The map built by the loop of [getDomainMinutes], started from [m0]. *)
Definition domainMapOf (sessions : list Session) (m0 : list (string * Z))
  : list (string * Z) :=
  fold_left (fun domainMap s =>
               Inspector.addDomainMinutes domainMap (domain (context s))
                                          (or_zero (duration_minutes s)))
            sessions m0.

(** How bad a hydration status is. *)
Definition severity (s : Engine.Status) : Z :=
  match s with
  | Engine.ok => 0
  | Engine.warn => 1
  | Engine.crit => 2
  end.
(* ================================================================== *)
(** * Properties *)
(* ================================================================== *)

(** ** Per-session score *)

Section SessionScore.

Import JSNumber Scoring.

Lemma getSessionScore_outcome (s : Session) (o : Outcome) :
  outcome s = Some o -> getSessionScore s = getSessionScore (sessionWith o).
Proof.
  intros H. unfold getSessionScore. rewrite H. reflexivity.
Qed.

Lemma close_to_formula_all :
  forallb (fun p => forallb (fun f => forallb (close_to_formula p f) ratings)
                            ratings) ratings = true.
Proof. vm_compute. reflexivity. Qed.

Lemma close_to_formula_ratings (p f q : Z) :
  1 <= p <= 5 -> 1 <= f <= 5 -> 1 <= q <= 5 -> close_to_formula p f q = true.
Proof.
  intros Hp Hf Hq.
  assert (Ip : In p ratings) by (simpl; lia).
  assert (If : In f ratings) by (simpl; lia).
  assert (Iq : In q ratings) by (simpl; lia).
  pose proof (proj1 (forallb_forall _ _) close_to_formula_all p Ip) as H1.
  pose proof (proj1 (forallb_forall _ _) H1 f If) as H2.
  exact (proj1 (forallb_forall _ _) H2 q Iq).
Qed.

(** The rational formula never needs its cap on ratings within 1..5: it
    is [(4p + 3f + 2q) * 20 / 9]. *)
Lemma score_formula_closed (p f q : Z) :
  1 <= p <= 5 -> 1 <= f <= 5 -> 1 <= q <= 5 ->
  (score_formula p f q == inject_Z (4 * p + 3 * f + 2 * q) * (20 # 9))%Q.
Proof.
  intros Hp Hf Hq. unfold score_formula.
  assert (E : ((inject_Z p * 2 + inject_Z f * (3 # 2) + inject_Z q * 1)
               / (45 # 2) * 100
               == inject_Z (4 * p + 3 * f + 2 * q) * (20 # 9))%Q).
  { rewrite !inject_Z_plus, !inject_Z_mult. field. }
  rewrite E. apply Q.min_r.
  unfold Qle, Qmult, inject_Z; simpl. lia.
Qed.

(** C1. For an ended session whose progress, focus and quality ratings lie
    in 1..5, [getSessionScore] returns a finite number that equals
    [min(100, (p*2 + f*1.5 + q*1) / 22.5 * 100)] up to the rounding of
    binary64 arithmetic (less than [2^-46]); ratings 5, 5, 5 score exactly
    100 and ratings 1, 1, 1 score exactly 20. *)
Theorem C1_session_score (s : Session) (o : Outcome) :
  outcome s = Some o ->
  1 <= progress_rating o <= 5 ->
  1 <= focus_quality o <= 5 ->
  1 <= quality_rating o <= 5 ->
  exists r : Q,
    to_Q (getSessionScore s) = Some r /\
    (Qabs (r - score_formula (progress_rating o) (focus_quality o)
                             (quality_rating o)) <= 1 # 70368744177664)%Q /\
    (progress_rating o = 5 -> focus_quality o = 5 -> quality_rating o = 5 ->
     (r == 100)%Q) /\
    (progress_rating o = 1 -> focus_quality o = 1 -> quality_rating o = 1 ->
     (r == 20)%Q).
Proof.
  intros Ho Hp Hf Hq.
  rewrite (getSessionScore_outcome s o Ho).
  destruct o as [p q f].
cbn [progress_rating focus_quality quality_rating] in *.
  pose proof (close_to_formula_ratings p f q Hp Hf Hq) as Hc.
  unfold close_to_formula in Hc.
  destruct (to_Q _) as [r |] eqn:Er; [| discriminate].
  exists r. split; [reflexivity |]. split.
  - apply Qle_bool_iff. exact Hc.
  - split; intros -> -> ->; vm_compute in Er; injection Er as <-; reflexivity.
Qed.

Lemma C1_session_score_witness :
  exists r : Q,
    to_Q (getSessionScore
            (sessionWith {| progress_rating := 5; quality_rating := 5;
                            focus_quality := 5 |})) = Some r /\
    (r == 100)%Q.
Proof.
  assert (B : 1 <= 5 <= 5) by lia.
  destruct (C1_session_score
              (sessionWith {| progress_rating := 5; quality_rating := 5;
                              focus_quality := 5 |})
              {| progress_rating := 5; quality_rating := 5;
                 focus_quality := 5 |}
              eq_refl B B B) as (r & Hr & _ & H5 & _).
  exists r. split; [exact Hr | apply H5; reflexivity].
Defined.

End SessionScore.

(** ** Fallback daily performance index *)

Section DailyIndex.

Import Scoring.

Lemma fold_left_add_sumZ {A : Type} (f : A -> Z) (l : list A) (a : Z) :
  fold_left (fun acc x => acc + f x) l a = a + Spec.sumZ (List.map f l).
Proof.
  revert a. induction l as [| x l IH]; intros a; simpl.
  - lia.
  - rewrite IH. lia.
Qed.

(** The efficiency step of the code adds the specification's component. *)
Lemma efficiency_step (sessions : list Session) (score : Z) :
  (let sessionsWithOutcome := List.filter has_outcome sessions in
   if 0 <? Z.of_nat (List.length sessionsWithOutcome)
   then score
        + Qfloor (inject_Z (fold_left (fun acc s => acc + outcome_focus s)
                                      sessionsWithOutcome 0)
                  / inject_Z (Z.of_nat (List.length sessionsWithOutcome)) * 4)
   else score)
  = score + Spec.efficiency_component sessions.
Proof.
  unfold Spec.efficiency_component, Spec.rated_focus. cbv zeta.
  rewrite fold_left_add_sumZ, Z.add_0_l.
  destruct (List.filter has_outcome sessions) as [| s l] eqn:E.
  - simpl. lia.
  - rewrite <- (length_map outcome_focus (s :: l)).
    remember (List.map outcome_focus (s :: l)) as fs eqn:Efs.
    destruct fs as [| x fs']; [discriminate |].
    replace (0 <? Z.of_nat (List.length (x :: fs'))) with true; [reflexivity |].
    symmetry. apply Z.ltb_lt. simpl List.length. lia.
Qed.

Lemma input_step (sleep : option Sleep) (score : Z) :
  match sleep with
  | Some sl =>
      let score :=
        if 420 <=? sleep_duration_minutes sl then score + 10
        else if 360 <=? sleep_duration_minutes sl then score + 5
        else score in
      if 4 <=? sleep_quality sl then score + 10 else score
  | None => score
  end = score + Spec.input_component sleep.
Proof.
  unfold Spec.input_component. destruct sleep as [sl |]; [| lia].
  cbv zeta.
  destruct (420 <=? sleep_duration_minutes sl);
    destruct (360 <=? sleep_duration_minutes sl);
    destruct (4 <=? sleep_quality sl); lia.
Qed.

(** Past its early return, the code computes the specification's index. *)
Lemma fallback_body (sessions : list Session) (sleep : option Sleep) :
  calculateFallbackScore sessions sleep = Spec.daily_index sessions sleep.
Proof.
  assert (Hbody :
    forall ss sl,
      Z.min 100
        (let score := 0 + Z.min 60
            (fold_left (fun acc s => acc + or_zero (duration_minutes s))
               (List.filter (fun s => WorkType_eqb (work_type (context s)) Deep) ss)
               0 / 5) in
         let score :=
           match sl with
           | Some sl =>
               let score :=
                 if 420 <=? sleep_duration_minutes sl then score + 10
                 else if 360 <=? sleep_duration_minutes sl then score + 5
                 else score in
               if 4 <=? sleep_quality sl then score + 10 else score
           | None => score
           end in
         let sessionsWithOutcome := List.filter has_outcome ss in
         if 0 <? Z.of_nat (List.length sessionsWithOutcome)
         then score
              + Qfloor (inject_Z (fold_left (fun acc s => acc + outcome_focus s)
                                            sessionsWithOutcome 0)
                        / inject_Z (Z.of_nat (List.length sessionsWithOutcome)) * 4)
         else score)
      = Spec.daily_index ss sl).
  { intros ss sl. cbv zeta.
    rewrite (efficiency_step ss), (input_step sl).
    unfold Spec.daily_index, Spec.output_component,
      Spec.total_deep_work_minutes.
    rewrite fold_left_add_sumZ. f_equal. }
  unfold calculateFallbackScore.
  destruct sessions as [| s ss]; destruct sleep as [sl |];
    rewrite <- Hbody; reflexivity.
Qed.

(** C2. The fallback daily performance index is the sum of the output
    component [min(60, floor(deep minutes / 5))], the input component (10
    for a sleep of at least 420 minutes, else 5 for at least 360, plus an
    independent 10 for a sleep quality of at least 4) and the efficiency
    component (floor of four times the mean focus quality of the rated
    sessions), capped at 100; with no session and no sleep record it is 0. *)
Theorem C2_fallback_daily_index (sessions : list Session) (sleep : option Sleep) :
  calculateFallbackScore sessions sleep
  = Z.min 100 (Spec.output_component sessions
               + Spec.input_component sleep
               + Spec.efficiency_component sessions)
  /\ calculateFallbackScore sessions sleep <= 100
  /\ calculateFallbackScore [] None = 0.
Proof.
  rewrite fallback_body. unfold Spec.daily_index.
  split; [reflexivity |]. split; [lia | reflexivity].
Qed.

End DailyIndex.

(** ** Intake bonus and extended score *)

Section IntakeBonus.

Import Scoring.

Lemma calculateIntakePoints_spec (i : Intake) :
  calculateIntakePoints (Some i) = Spec.intake_bonus i.
Proof.
  unfold calculateIntakePoints, Spec.intake_bonus, Spec.meals_logged.
  cbv zeta. simpl List.filter.
  destruct (truthy_string (breakfast_time i));
    destruct (truthy_string (lunch_time i));
    destruct (truthy_string (dinner_time i)); simpl List.length; f_equal; lia.
Qed.

(** C3. The intake bonus is [min(5, floor(water/2))] plus 5 per logged meal
    among breakfast, lunch and dinner, capped at 20; ten glasses with the
    three meals logged give exactly 20 (whatever the non-empty time stamps
    are); and the extended score is [min(100, base + bonus)], at most 100
    for every base score, with or without an intake record. *)
Theorem C3_intake_bonus_and_extended_score
    (i : Intake) (base : Q) (any : option Intake)
    (cb cl cd : ascii) (tb tl td : string) :
  calculateIntakePoints (Some i)
  = Z.min 20 (Z.min 5 (water_count i / 2) + 5 * Spec.meals_logged i)
  /\ calculateIntakePoints
       (Some {| water_count := 10;
                breakfast_time := Some (String cb tb);
                lunch_time := Some (String cl tl);
                dinner_time := Some (String cd td) |}) = 20
  /\ (extendedLiveScore base (Some i)
      == Qmin 100 (base + inject_Z (Spec.intake_bonus i)))%Q
  /\ (extendedLiveScore base any <= 100)%Q.
Proof.
  split; [apply calculateIntakePoints_spec |].
  split; [reflexivity |].
  split.
  - unfold extendedLiveScore. rewrite calculateIntakePoints_spec. reflexivity.
  - unfold extendedLiveScore. apply Q.le_min_l.
Qed.

End IntakeBonus.

(** ** System load *)

Section SystemLoad.

Import Scoring.

Lemma calculateSystemLoad_fold (sessions : list Session) :
  calculateSystemLoad sessions
  = Spec.load_percent (fold_left loadStep sessions 0%Q).
Proof. reflexivity. Qed.

Lemma loadStep_rated (a : Q) (s : Session) :
  has_outcome s = true -> (loadStep a s == a + Spec.load_weight s)%Q.
Proof.
  unfold has_outcome, loadStep, Spec.load_weight.
  destruct (outcome s); [intros _ | discriminate].
  cbv zeta. destruct (work_type (context s)); ring.
Qed.

Lemma loadStep_unrated (a : Q) (s : Session) :
  has_outcome s = false -> loadStep a s = a.
Proof.
  unfold has_outcome, loadStep. destruct (outcome s); [discriminate | reflexivity].
Qed.

Lemma fold_loadStep (sessions : list Session) (a : Q) :
  (fold_left loadStep sessions a
   == a + Spec.accumulated_load (List.filter has_outcome sessions))%Q.
Proof.
  revert a. induction sessions as [| s l IH]; intros a; simpl.
  - unfold Spec.accumulated_load. simpl. ring.
  - rewrite IH. destruct (has_outcome s) eqn:E.
    + rewrite (loadStep_rated a s E). unfold Spec.accumulated_load. simpl. ring.
    + rewrite (loadStep_unrated a s E). reflexivity.
Qed.

Lemma load_percent_comp (x y : Q) :
  (x == y)%Q -> Spec.load_percent x = Spec.load_percent y.
Proof.
  intros H. unfold Spec.load_percent, Math_round.
  do 2 f_equal. apply Qfloor_comp. rewrite H. reflexivity.
Qed.

Lemma load_percent_range (x : Q) : 0 <= Spec.load_percent x <= 100.
Proof. unfold Spec.load_percent. lia. Qed.

Lemma calculateSystemLoad_rated (sessions : list Session) :
  calculateSystemLoad sessions
  = Spec.load_percent
      (Spec.accumulated_load (List.filter has_outcome sessions)).
Proof.
  rewrite calculateSystemLoad_fold. apply load_percent_comp.
  rewrite fold_loadStep. ring.
Qed.

(** When the sessions without an outcome carry no minutes (an unended
    session has no stored duration), skipping them changes nothing and the
    gauge accumulates over all of the day's sessions. *)
Lemma calculateSystemLoad_all_sessions (sessions : list Session) :
  Forall (fun s => has_outcome s = false -> or_zero (duration_minutes s) = 0)
         sessions ->
  calculateSystemLoad sessions
  = Spec.load_percent (Spec.accumulated_load sessions).
Proof.
  intros H. rewrite calculateSystemLoad_rated. apply load_percent_comp.
  induction H as [| s l Hs _ IH]; [reflexivity |].
  unfold Spec.accumulated_load in *. simpl.
  destruct (has_outcome s) eqn:E; simpl.
  - rewrite IH. reflexivity.
  - rewrite IH. unfold Spec.load_weight. rewrite (Hs eq_refl).
    cbv zeta. destruct (work_type (context s)); ring.
Qed.



End SystemLoad.

(** ** Dates: week start and sleep duration *)

Section WeekStart.

Import JSDate.

Variable tz : Z.

Lemma getDay_range (d : Date) : 0 <= getDay tz d < 7.
Proof. unfold getDay. apply Z.mod_pos_bound. lia. Qed.

Lemma localDay_addDays (d : Date) (k : Z) :
  localDay tz (addDays d k) = localDay tz d + k.
Proof.
  unfold localDay, addDays.
  replace (d + k * MS_PER_DAY + tz) with (d + tz + k * MS_PER_DAY) by ring.
  apply Z.div_add. unfold MS_PER_DAY. lia.
Qed.


Lemma getDay_addDays (d : Date) (k : Z) :
  getDay tz (addDays d k) = (getDay tz d + k) mod 7.
Proof.
  unfold getDay. rewrite localDay_addDays.
  rewrite Zplus_mod_idemp_l. f_equal. ring.
Qed.

Lemma addDays_addDays (d : Date) (j k : Z) :
  addDays (addDays d j) k = addDays d (j + k).
Proof. unfold addDays, MS_PER_DAY. lia. Qed.

Lemma addDays_0 (d : Date) : addDays d 0 = d.
Proof. unfold addDays, MS_PER_DAY. lia. Qed.

(** C8. [mondayOfWeek] returns the Monday on or before its argument: a
    date of weekday [w] in Monday=1 .. Saturday=6 moves back [w - 1] days,
    a Sunday moves back six days; the result has weekday Monday and lies
    at most six days before the argument, at the same time of day. *)
Theorem C8_monday_of_week (d : Date) :
  let w := getDay tz d in
  let shift := if w =? 0 then 6 else w - 1 in
  mondayOfWeek tz d = addDays d (- shift)
  /\ getDay tz (mondayOfWeek tz d) = 1
  /\ localDay tz d - localDay tz (mondayOfWeek tz d) = shift
  /\ 0 <= localDay tz d - localDay tz (mondayOfWeek tz d) <= 6.
Proof.
  intros w shift.
  pose proof (getDay_range d) as Hw. fold w in Hw.
  assert (E : mondayOfWeek tz d = addDays d (- shift)).
  { unfold mondayOfWeek. fold w. unfold shift.
    destruct (w =? 0) eqn:E0; f_equal; lia. }
  split; [exact E |]. rewrite E.
  rewrite getDay_addDays, localDay_addDays. fold w.
  unfold shift. destruct (w =? 0) eqn:E0.
  - apply Z.eqb_eq in E0. rewrite E0.
    split; [reflexivity | lia].
  - apply Z.eqb_neq in E0.
    replace (w + - (w - 1)) with 1 by ring.
    split; [reflexivity | lia].
Qed.

End WeekStart.

Section SleepDuration.

Import SleepLog.

Lemma floor_minutes (diff : Z) :
  Qfloor (inject_Z diff / 1000 / 60) = diff / 60000.
Proof.
  rewrite Zdiv_Qdiv. apply Qfloor_comp.
  change (inject_Z 60000) with (60000%Q). field.
Qed.

(** C9. The sleep duration is the end minus the start, in milliseconds,
    floored to whole minutes and clamped at zero: never negative, and 0
    when the end is at or before the start. *)
Theorem C9_sleep_duration (s e : Z) :
  calculateDuration (Some s) (Some e) = Z.max 0 ((e - s) / 60000)
  /\ 0 <= calculateDuration (Some s) (Some e)
  /\ (e <= s -> calculateDuration (Some s) (Some e) = 0)
  /\ (s <= e ->
      60000 * calculateDuration (Some s) (Some e) <= e - s
      < 60000 * (calculateDuration (Some s) (Some e) + 1)).
Proof.
  assert (E : calculateDuration (Some s) (Some e) = Z.max 0 ((e - s) / 60000)).
  { unfold calculateDuration. cbv zeta. rewrite floor_minutes. reflexivity. }
  rewrite E. split; [reflexivity |]. split; [lia |].
  split; intros H.
  - assert ((e - s) / 60000 <= 0) by (apply Z.div_le_upper_bound; lia). lia.
  - assert (0 <= (e - s) / 60000) by (apply Z.div_pos; lia).
    rewrite Z.max_r by lia.
    pose proof (Z.div_mod (e - s) 60000 ltac:(lia)) as Hdm.
    pose proof (Z.mod_pos_bound (e - s) 60000 ltac:(lia)) as Hb.
    lia.
Qed.

Lemma C9_sleep_duration_witness :
  calculateDuration (Some 1000) (Some 500) = 0
  /\ 60000 * calculateDuration (Some 0) (Some 28800000) <= 28800000 - 0
     < 60000 * (calculateDuration (Some 0) (Some 28800000) + 1).
Proof.
  split.
  - apply (C9_sleep_duration 1000 500). lia.
  - apply (C9_sleep_duration 0 28800000). lia.
Defined.

End SleepDuration.

(** ** Calendar heat map *)

Section Calendar.

Import JSDate CalendarHeatmap.

Variable tz : Z.
Variable data : list Item.














End Calendar.



(** ** Sleep versus deep work *)

Section SleepVsDeepworkFacts.

Import SleepVsDeepwork.

(** The plain script presents the rows in the order of the series: labels,
    both data sets and the text lines follow it row by row. *)
Lemma renderSleepVsDeepwork_order (data : list Row) :
  labels (fst (renderSleepVsDeepwork data)) = List.map row_date data
  /\ sleep_dataset (fst (renderSleepVsDeepwork data))
     = List.map sleep_minutes data
  /\ deep_dataset (fst (renderSleepVsDeepwork data))
     = List.map deep_minutes data
  /\ tl (snd (renderSleepVsDeepwork data)) = List.map textLine data.
Proof. repeat split. Qed.

(** The plain script keeps a missing sleep entry apart from a zero one. *)
Lemma textLine_absent_vs_zero (d : string) (w : Z) :
  textLine {| row_date := d; sleep_minutes := None; deep_minutes := w |}
  <> textLine {| row_date := d; sleep_minutes := Some 0; deep_minutes := w |}.
Proof.
  unfold textLine. cbn [row_date sleep_minutes deep_minutes].
  intros H.
  induction d as [| c d IH]; simpl in H.
  - discriminate.
  - injection H as H. apply IH. exact H.
Qed.

Lemma scaleY_or_zero (m : option Z) (maxMins : Z) :
  scaleY (Some (or_zero m)) maxMins = scaleY m maxMins.
Proof. destruct m as [[| p | p] |]; reflexivity. Qed.

Lemma renderColumn_zeroFill (maxSleep maxDeep : Z) (day : Row) :
  renderColumn maxSleep maxDeep (zeroFill day)
  = renderColumn maxSleep maxDeep day.
Proof.
  unfold renderColumn, zeroFill. cbn [row_date sleep_minutes deep_minutes].
  destruct (sleep_minutes day) as [[| p | p] |]; reflexivity.
Qed.

(** The analytics view shows a series the same way after every missing
    sleep entry is replaced by a recorded zero. *)
Lemma renderAnalytics_zeroFill (data : list Row) :
  renderAnalytics (List.map zeroFill data) = renderAnalytics data.
Proof.
  destruct data as [| r l]; [reflexivity |].
  unfold renderAnalytics.
  remember (r :: l) as data eqn:E.
  assert (Hs : List.map (fun d => or_zero (sleep_minutes d)) (List.map zeroFill data)
               = List.map (fun d => or_zero (sleep_minutes d)) data).
  { rewrite List.map_map. apply List.map_ext. intros d. reflexivity. }
  assert (Hd : List.map deep_minutes (List.map zeroFill data)
               = List.map deep_minutes data).
  { rewrite List.map_map. apply List.map_ext. intros d. reflexivity. }
  rewrite Hs, Hd. subst data. cbn [List.map].
  f_equal. f_equal; [apply renderColumn_zeroFill |].
  rewrite List.map_map. apply List.map_ext. intros d.
  apply renderColumn_zeroFill.
Qed.

(** C6 on the code. For a day without a sleep record and the same day
    with a recorded sleep of zero minutes, the analytics view renders the
    same column (no dot, "Sleep: 0m"), whereas the plain script renders
    them differently (a dash against a zero, [null] against 0 in the
    chart). *)
Theorem C6_analytics_renders_absent_sleep_as_zero :
  renderAnalytics [day_sleep_absent] = renderAnalytics [day_sleep_zero]
  /\ option_map (List.map tip_sleep) (renderAnalytics [day_sleep_absent])
     = Some [0]
  /\ option_map (List.map sleep_dot) (renderAnalytics [day_sleep_zero])
     = Some [None]
  /\ snd (renderSleepVsDeepwork [day_sleep_absent])
     = ["Date        Sleep  Deep"; "2025-01-01     -    30"]%string
  /\ snd (renderSleepVsDeepwork [day_sleep_zero])
     = ["Date        Sleep  Deep"; "2025-01-01      0    30"]%string
  /\ sleep_dataset (fst (renderSleepVsDeepwork [day_sleep_absent])) = [None]
  /\ sleep_dataset (fst (renderSleepVsDeepwork [day_sleep_zero])) = [Some 0].
Proof. repeat split. Qed.

End SleepVsDeepworkFacts.

(** ** Continuity of the biological state *)

Section Continuity.

Import Dashboard.







Lemma prefillBioState_found (st : State) (lc : Session) (a : AfterState) :
  lastCompleted st = Some lc -> after lc = Some a ->
  prefillBioState st
  = {| todaySessions := todaySessions st;
       newSession := set_bio (newSession st) (energy a) (stress a);
       pendingTaskId := pendingTaskId st;
       showStartModal := showStartModal st |}.
Proof. intros H1 H2. unfold prefillBioState. rewrite H1, H2. reflexivity. Qed.



(** On the sample day the form is prefilled from the afternoon session. *)
Example continuity_sample :
  let st := openStartForm
              (refreshData [morning_session; running_session; afternoon_session]
                           blank_dashboard) in
  energy_before (newSession st) = 4 /\ stress_before (newSession st) = 8.
Proof. split; reflexivity. Qed.

End Continuity.

(** ** Intake panel *)

Section IntakePanel.

Import BiologicalState.

Lemma requestWater_refused (st : State) :
  8 <= water_count (intake st) -> requestWater st = st.
Proof.
  intros H. unfold requestWater.
  destruct (8 <=? water_count (intake st)) eqn:E; [reflexivity |].
  apply Z.leb_gt in E. lia.
Qed.

Lemma confirmAction_add_increments (post_ok : bool) (now : string) (st : State) :
  confirmMode st = Some WaterAdd ->
  water_count (intake (fst (confirmAction post_ok now st)))
  = water_count (intake st) + 1.
Proof.
  intros H. unfold confirmAction. rewrite H. destruct post_ok; reflexivity.
Qed.

Lemma water_count_set_meal_time (i : Intake) (type : Meal) (t : string) :
  water_count (set_meal_time i type t) = water_count i.
Proof. destruct type; reflexivity. Qed.

Lemma step_inv (st : State) (ev : Event) :
  posts_resolve ev = true -> panel_inv st -> panel_inv (step st ev).
Proof.
  unfold panel_inv. intros Hev [Hle Hadd].
  destruct ev as [| | type | | post_ok now]; simpl.
  - unfold requestWater.
    destruct (8 <=? water_count (intake st)) eqn:E; [split; assumption |].
    apply Z.leb_gt in E. simpl. split; [exact Hle | intros _; exact E].
  - unfold requestRemoveWater.
    destruct (water_count (intake st) <=? 0); [split; assumption |].
    simpl. split; [exact Hle | discriminate].
  - unfold requestMeal.
    destruct (truthy_string _); [split; assumption |].
    simpl. split; [exact Hle | discriminate].
  - split; [exact Hle | discriminate].
  - simpl in Hev. subst post_ok. unfold confirmAction.
    destruct (confirmMode st) as [[| | type] |] eqn:Em; simpl.
    + specialize (Hadd eq_refl). split; [lia | discriminate].
    + split; [lia | discriminate].
    + rewrite water_count_set_meal_time. split; [exact Hle | discriminate].
    + split; [exact Hle | rewrite Em; discriminate].
Qed.

(** While every confirmation's [post] resolves, the counter stays at or
    below 8 and the water sub-bonus at or below 4. *)
Lemma water_bounded_while_posts_resolve (evs : list Event) (st : State) :
  forallb posts_resolve evs = true ->
  panel_inv st ->
  water_count (intake (run st evs)) <= 8
  /\ waterPoints (intake (run st evs)) <= 4.
Proof.
  intros Hall Hinv.
  assert (H : panel_inv (run st evs)).
  { revert st Hinv. induction evs as [| ev evs IH]; intros st Hinv; [exact Hinv |].
    simpl in Hall. apply andb_true_iff in Hall. destruct Hall as [Hev Hall].
    apply (IH Hall). apply step_inv; assumption. }
  destruct H as [Hle _]. split; [exact Hle |].
  unfold waterPoints.
  assert (water_count (intake (run st evs)) / 2 <= 4)
    by (apply Z.div_le_upper_bound; lia).
  lia.
Qed.

(** C10 on the code. Seven glasses are logged; the eighth is requested and
    its confirmation fails twice before it succeeds. Each click on Confirm
    adds one glass, the overlay stays open because [confirmMode] is reset
    only after the [post], and the counter ends at 10, with a water
    sub-bonus of 5. *)
Theorem C10_water_counter_after_failed_posts :
  water_count (intake (run init seven_glasses)) = 7
  /\ confirmMode (run init (seven_glasses ++ [ClickWater])) = Some WaterAdd
  /\ water_count (intake (run init (seven_glasses ++ eighth_glass_retried))) = 10
  /\ waterPoints (intake (run init (seven_glasses ++ eighth_glass_retried))) = 5
  /\ 8 < water_count (intake (run init (seven_glasses ++ eighth_glass_retried))).
Proof. repeat split. Qed.

End IntakePanel.

(* ================================================================== *)
(** * Further properties of the scoring functions *)
(* ================================================================== *)

Section ScoreScale.

Import JSNumber Scoring.

Lemma forallb_ratings (P : Z -> bool) (p : Z) :
  forallb P ratings = true -> 1 <= p <= 5 -> P p = true.
Proof.
  intros H Hp. apply (proj1 (forallb_forall P ratings) H). simpl. lia.
Qed.

Lemma score_in_range_all :
  forallb (fun p => forallb (fun f => forallb (score_in_range p f) ratings)
                            ratings) ratings = true.
Proof. vm_compute. reflexivity. Qed.

Lemma score_monotone_all :
  forallb (fun p => forallb (fun f => forallb (score_monotone_from p f) ratings)
                            ratings) ratings = true.
Proof. vm_compute. reflexivity. Qed.

(** X1. For ratings on the 1..5 scale the binary64 score of a session is
    a finite number between 20 and 100, and raising any of the three
    ratings never lowers it; the same session without its outcome scores
    0. *)
Theorem X1_session_score_range_and_order (s s' : Session) (o o' : Outcome) :
  outcome s = Some o -> outcome s' = Some o' ->
  1 <= progress_rating o <= progress_rating o' ->
  progress_rating o' <= 5 ->
  1 <= focus_quality o <= focus_quality o' ->
  focus_quality o' <= 5 ->
  1 <= quality_rating o <= quality_rating o' ->
  quality_rating o' <= 5 ->
  to_Q (getSessionScore {| start_time := start_time s;
                           context := context s;
                           duration_minutes := duration_minutes s;
                           outcome := None;
                           after := after s |}) = Some 0%Q
  /\ exists r r' : Q,
       to_Q (getSessionScore s) = Some r
       /\ to_Q (getSessionScore s') = Some r'
       /\ (20 <= r)%Q /\ (r <= r')%Q /\ (r' <= 100)%Q.
Proof.
  intros Ho Ho' Hp Hp' Hf Hf' Hq Hq'.
  split; [reflexivity |].
  rewrite (getSessionScore_outcome s o Ho), (getSessionScore_outcome s' o' Ho').
  destruct o as [p q f], o' as [p' q' f'].
  cbn [progress_rating focus_quality quality_rating] in *.
  assert (R : score_in_range p f q = true).
  { pose proof (forallb_ratings _ p score_in_range_all ltac:(lia)) as H1.
    pose proof (forallb_ratings _ f H1 ltac:(lia)) as H2.
    exact (forallb_ratings _ q H2 ltac:(lia)). }
  assert (R' : score_in_range p' f' q' = true).
  { pose proof (forallb_ratings _ p' score_in_range_all ltac:(lia)) as H1.
    pose proof (forallb_ratings _ f' H1 ltac:(lia)) as H2.
    exact (forallb_ratings _ q' H2 ltac:(lia)). }
  assert (M : score_le (score64 p f q) (score64 p' f' q') = true).
  { pose proof (forallb_ratings _ p score_monotone_all ltac:(lia)) as H1.
    pose proof (forallb_ratings _ f H1 ltac:(lia)) as H2.
    pose proof (forallb_ratings _ q H2 ltac:(lia)) as H3.
    unfold score_monotone_from in H3.
    pose proof (forallb_ratings _ p' H3 ltac:(lia)) as H4.
    pose proof (forallb_ratings _ f' H4 ltac:(lia)) as H5.
    pose proof (forallb_ratings _ q' H5 ltac:(lia)) as H6.
    cbv beta in H6.
    replace (p <=? p') with true in H6 by (symmetry; apply Z.leb_le; lia).
    replace (f <=? f') with true in H6 by (symmetry; apply Z.leb_le; lia).
    replace (q <=? q') with true in H6 by (symmetry; apply Z.leb_le; lia).
    exact H6. }
  unfold score_in_range in R, R'. unfold score_le in M. unfold score64 in R, R', M.
  destruct (to_Q (getSessionScore (sessionWith
              {| progress_rating := p; quality_rating := q;
                 focus_quality := f |}))) as [r |]; [| discriminate].
  destruct (to_Q (getSessionScore (sessionWith
              {| progress_rating := p'; quality_rating := q';
                 focus_quality := f' |}))) as [r' |]; [| discriminate].
  apply andb_true_iff in R. destruct R as [R1 _].
  apply andb_true_iff in R'. destruct R' as [_ R2].
  exists r, r'. split; [reflexivity |]. split; [reflexivity |].
  split; [apply Qle_bool_iff; exact R1 |].
  split; [apply Qle_bool_iff; exact M | apply Qle_bool_iff; exact R2].
Qed.

Lemma X1_session_score_range_and_order_witness :
  exists r r' : Q,
    to_Q (getSessionScore (sessionWith {| progress_rating := 2;
                                          quality_rating := 3;
                                          focus_quality := 1 |})) = Some r
    /\ to_Q (getSessionScore (sessionWith {| progress_rating := 4;
                                             quality_rating := 3;
                                             focus_quality := 5 |})) = Some r'
    /\ (r <= r')%Q.
Proof.
  destruct (X1_session_score_range_and_order
              (sessionWith {| progress_rating := 2; quality_rating := 3;
                              focus_quality := 1 |})
              (sessionWith {| progress_rating := 4; quality_rating := 3;
                              focus_quality := 5 |})
              _ _ eq_refl eq_refl
              ltac:(cbn; lia) ltac:(cbn; lia) ltac:(cbn; lia)
              ltac:(cbn; lia) ltac:(cbn; lia) ltac:(cbn; lia))
    as (_ & r & r' & H1 & H2 & _ & H3 & _).
  exists r, r'. split; [exact H1 |]. split; [exact H2 | exact H3].
Defined.

End ScoreScale.

Section IndexBounds.

Import Scoring.

Lemma sumZ_bounds (l : list Z) (lo hi : Z) :
  Forall (fun x => lo <= x <= hi) l ->
  lo * Z.of_nat (List.length l) <= Spec.sumZ l <= hi * Z.of_nat (List.length l).
Proof.
  induction 1 as [| x l Hx _ IH]; simpl Spec.sumZ; simpl List.length; lia.
Qed.

Lemma sumZ_nonneg (l : list Z) :
  Forall (fun x => 0 <= x) l -> 0 <= Spec.sumZ l.
Proof. induction 1 as [| x l Hx _ IH]; simpl; lia. Qed.

(** Four times a mean, floored, is an integer division. *)
Lemma floor_mean_times_4 (total n : Z) :
  0 < n -> Qfloor (inject_Z total / inject_Z n * 4) = (4 * total) / n.
Proof.
  intros Hn. rewrite Zdiv_Qdiv. apply Qfloor_comp.
  rewrite inject_Z_mult. field.
  intros H. apply (inject_Z_injective n 0) in H. lia.
Qed.

Lemma efficiency_component_div (sessions : list Session) :
  Spec.efficiency_component sessions
  = if Z.of_nat (List.length (Spec.rated_focus sessions)) =? 0 then 0
    else (4 * Spec.sumZ (Spec.rated_focus sessions))
         / Z.of_nat (List.length (Spec.rated_focus sessions)).
Proof.
  unfold Spec.efficiency_component.
  destruct (Spec.rated_focus sessions) as [| x fs]; [reflexivity |].
  rewrite floor_mean_times_4 by (simpl List.length; lia).
  destruct (Z.of_nat (List.length (x :: fs)) =? 0) eqn:E; [| reflexivity].
  apply Z.eqb_eq in E. simpl List.length in E. lia.
Qed.

(** X2. When no Deep session has a negative duration and every rated
    session has a focus quality between 0 and 5, the three components of
    the fallback index stay within 0..60, 0..20 and 0..20, so the cap at
    100 is never the binding one: the index is the plain sum of the
    components and lies between 0 and 100. *)
Theorem X2_fallback_index_components_bounded
    (sessions : list Session) (sleep : option Sleep) :
  Forall (fun s => 0 <= or_zero (duration_minutes s)) sessions ->
  Forall (fun s => has_outcome s = true -> 0 <= outcome_focus s <= 5) sessions ->
  0 <= Spec.output_component sessions <= 60
  /\ 0 <= Spec.input_component sleep <= 20
  /\ 0 <= Spec.efficiency_component sessions <= 20
  /\ calculateFallbackScore sessions sleep
     = Spec.output_component sessions + Spec.input_component sleep
       + Spec.efficiency_component sessions
  /\ 0 <= calculateFallbackScore sessions sleep <= 100.
Proof.
  intros Hd Hf.
  assert (Ho : 0 <= Spec.output_component sessions <= 60).
  { unfold Spec.output_component, Spec.total_deep_work_minutes.
    assert (0 <= Spec.sumZ (List.map (fun s => or_zero (duration_minutes s))
                   (List.filter (fun s => WorkType_eqb (work_type (context s)) Deep)
                                sessions))).
    { apply sumZ_nonneg. apply Forall_map.
      rewrite Forall_forall in Hd |- *. intros s Hs.
      apply Hd. apply filter_In in Hs. exact (proj1 Hs). }
    assert (0 <= Spec.sumZ (List.map (fun s => or_zero (duration_minutes s))
                   (List.filter (fun s => WorkType_eqb (work_type (context s)) Deep)
                                sessions)) / 5)
      by (apply Z.div_pos; lia).
    lia. }
  assert (Hi : 0 <= Spec.input_component sleep <= 20).
  { unfold Spec.input_component. destruct sleep as [sl |]; [| lia].
    destruct (420 <=? sleep_duration_minutes sl);
      destruct (360 <=? sleep_duration_minutes sl);
      destruct (4 <=? sleep_quality sl); lia. }
  assert (He : 0 <= Spec.efficiency_component sessions <= 20).
  { rewrite efficiency_component_div.
    assert (Hb : Forall (fun x => 0 <= x <= 5) (Spec.rated_focus sessions)).
    { unfold Spec.rated_focus. apply Forall_map.
      rewrite Forall_forall in Hf |- *. intros s Hs.
      apply filter_In in Hs. destruct Hs as [Hs Hr]. exact (Hf s Hs Hr). }
    pose proof (sumZ_bounds _ 0 5 Hb) as Hs.
    set (n := Z.of_nat (List.length (Spec.rated_focus sessions))) in *.
    set (t := Spec.sumZ (Spec.rated_focus sessions)) in *.
    destruct (n =? 0) eqn:En; [lia |].
    apply Z.eqb_neq in En.
    assert (0 < n) by lia.
    split.
    - apply Z.div_pos; lia.
    - apply Z.div_le_upper_bound; lia. }
  split; [exact Ho |]. split; [exact Hi |]. split; [exact He |].
  rewrite fallback_body. unfold Spec.daily_index. lia.
Qed.

Lemma X2_fallback_index_components_bounded_witness :
  calculateFallbackScore [ratedSession Deep 120; ratedSession Shallow 30]
    (Some {| sleep_duration_minutes := 450; sleep_quality := 4 |})
  = Spec.output_component [ratedSession Deep 120; ratedSession Shallow 30]
    + Spec.input_component
        (Some {| sleep_duration_minutes := 450; sleep_quality := 4 |})
    + Spec.efficiency_component [ratedSession Deep 120; ratedSession Shallow 30].
Proof.
  apply (X2_fallback_index_components_bounded
           [ratedSession Deep 120; ratedSession Shallow 30]
           (Some {| sleep_duration_minutes := 450; sleep_quality := 4 |})).
  - apply Forall_cons; [cbn; lia |]. apply Forall_cons; [cbn; lia |].
    apply Forall_nil.
  - apply Forall_cons; [intros _; cbn; lia |].
    apply Forall_cons; [intros _; cbn; lia |]. apply Forall_nil.
Defined.

End IndexBounds.

Section IntakePoints.

Import Scoring.

Lemma meals_logged_range (i : Intake) : 0 <= Spec.meals_logged i <= 3.
Proof.
  unfold Spec.meals_logged.
  destruct (truthy_string (breakfast_time i));
    destruct (truthy_string (lunch_time i));
    destruct (truthy_string (dinner_time i)); lia.
Qed.

Lemma meals_logged_all (i : Intake) :
  Spec.meals_logged i = 3
  <-> truthy_string (breakfast_time i) = true
      /\ truthy_string (lunch_time i) = true
      /\ truthy_string (dinner_time i) = true.
Proof.
  unfold Spec.meals_logged.
  destruct (truthy_string (breakfast_time i));
    destruct (truthy_string (lunch_time i));
    destruct (truthy_string (dinner_time i)); intuition (try lia; try discriminate).
Qed.

Lemma intake_points_range (i : Intake) :
  calculateIntakePoints (Some i) <= 20
  /\ (0 <= water_count i -> 0 <= calculateIntakePoints (Some i)).
Proof.
  rewrite calculateIntakePoints_spec. unfold Spec.intake_bonus.
  pose proof (meals_logged_range i) as Hm.
  split; [lia |].
  intros H0. assert (0 <= water_count i / 2) by (apply Z.div_pos; lia). lia.
Qed.

(** X3. Whatever the intake record, the outer cap of
    [calculateIntakePoints] is never the binding one: the points are
    [min(5, floor(water/2)) + 5 * meals] and at most 20. With a non-negative
    glass count they are not negative, and they reach 20 exactly when at
    least ten glasses and all three meals are logged. *)
Theorem X3_intake_points_cap_never_binds (i : Intake) :
  calculateIntakePoints (Some i)
  = Z.min 5 (water_count i / 2) + 5 * Spec.meals_logged i
  /\ calculateIntakePoints (Some i) <= 20
  /\ (0 <= water_count i -> 0 <= calculateIntakePoints (Some i))
  /\ (calculateIntakePoints (Some i) = 20
      <-> 10 <= water_count i
          /\ truthy_string (breakfast_time i) = true
          /\ truthy_string (lunch_time i) = true
          /\ truthy_string (dinner_time i) = true).
Proof.
  rewrite calculateIntakePoints_spec. unfold Spec.intake_bonus.
  pose proof (meals_logged_range i) as Hm.
  pose proof (meals_logged_all i) as Ha.
  assert (Hw : 10 <= water_count i <-> 5 <= water_count i / 2).
  { split; intros H.
    - apply Z.div_le_lower_bound; lia.
    - pose proof (Z.mul_div_le (water_count i) 2 ltac:(lia)). lia. }
  split; [lia |]. split; [lia |]. split.
  - intros H0. assert (0 <= water_count i / 2) by (apply Z.div_pos; lia). lia.
  - rewrite <- Ha. split; intros H; lia.
Qed.

Lemma X3_intake_points_cap_never_binds_witness :
  0 <= calculateIntakePoints
         (Some {| water_count := 3; breakfast_time := Some "08:00"%string;
                  lunch_time := None; dinner_time := None |}).
Proof.
  apply (X3_intake_points_cap_never_binds
           {| water_count := 3; breakfast_time := Some "08:00"%string;
              lunch_time := None; dinner_time := None |}).
  cbn. lia.
Defined.

(** X4. The intake bonus never lowers a live score of at most 100 and
    never adds more than 20 to it; without an intake record the extended
    score is the live score itself. *)
Theorem X4_extended_score_between (liveScore : Q) (i : Intake) :
  (liveScore <= 100)%Q ->
  0 <= water_count i ->
  (liveScore <= extendedLiveScore liveScore (Some i))%Q
  /\ (extendedLiveScore liveScore (Some i) <= liveScore + 20)%Q
  /\ (extendedLiveScore liveScore (Some i) <= 100)%Q
  /\ (extendedLiveScore liveScore None == liveScore)%Q.
Proof.
  intros Hs Hw.
  destruct (intake_points_range i) as (Hle & Hge).
  specialize (Hge Hw).
  unfold extendedLiveScore.
  set (b := calculateIntakePoints (Some i)) in *.
  assert (Hb0 : (0 <= inject_Z b)%Q).
  { change 0%Q with (inject_Z 0). rewrite <- Zle_Qle. exact Hge. }
  assert (Hb20 : (inject_Z b <= 20)%Q).
  { change 20%Q with (inject_Z 20). rewrite <- Zle_Qle. exact Hle. }
  split.
  - apply Q.min_glb; [exact Hs |].
    rewrite <- (Qplus_0_r liveScore) at 1. apply Qplus_le_r. exact Hb0.
  - split.
    + eapply Qle_trans; [apply Q.le_min_r |]. apply Qplus_le_r. exact Hb20.
    + split; [apply Q.le_min_l |].
      cbn [calculateIntakePoints]. rewrite Qplus_0_r.
      apply Q.min_r. exact Hs.
Qed.

Lemma X4_extended_score_between_witness :
  (50 <= extendedLiveScore 50
           (Some {| water_count := 4; breakfast_time := None;
                    lunch_time := None; dinner_time := None |}))%Q.
Proof.
  apply (X4_extended_score_between 50
           {| water_count := 4; breakfast_time := None;
              lunch_time := None; dinner_time := None |}).
  - unfold Qle; simpl; lia.
  - cbn; lia.
Defined.

End IntakePoints.

Section Rounding.

Lemma Qfloor_plus_Z (x : Q) (n : Z) : Qfloor (x + inject_Z n) = Qfloor x + n.
Proof.
  destruct x as [a b]. unfold Qfloor, Qplus, inject_Z. cbn [Qnum Qden].
  rewrite Pos.mul_1_r, Z.mul_1_r. apply Z.div_add. lia.
Qed.

Lemma Math_round_mono (x y : Q) : (x <= y)%Q -> Math_round x <= Math_round y.
Proof.
  intros H. unfold Math_round. apply Qfloor_resp_le.
  apply Qplus_le_l. exact H.
Qed.

Lemma Math_round_plus_Z (x : Q) (n : Z) :
  Math_round (x + inject_Z n) = Math_round x + n.
Proof.
  unfold Math_round. rewrite <- Qfloor_plus_Z. apply Qfloor_comp. ring.
Qed.

Lemma Math_round_Z (n : Z) : Math_round (inject_Z n) = n.
Proof.
  unfold Math_round.
  assert (E : (inject_Z n + (1 # 2) == (1 # 2) + inject_Z n)%Q) by ring.
  rewrite (Qfloor_comp _ _ E), Qfloor_plus_Z. reflexivity.
Qed.

End Rounding.

Section AnalyticsScore.

Import Scoring Analytics.

Lemma fold_left_pointsOrZero (l : list (option Intake)) (a : Z) :
  fold_left (fun sum intake =>
               sum + match intake with
                     | Some i => calculateIntakePoints (Some i)
                     | None => 0
                     end) l a
  = a + Spec.sumZ (List.map pointsOrZero l).
Proof.
  revert a. induction l as [| x l IH]; intros a;
    cbn [fold_left List.map Spec.sumZ].
  - lia.
  - rewrite IH. destruct x as [i |]; cbn [pointsOrZero]; lia.
Qed.

Lemma avgIntakePoints_closed (x : option Intake) (l : list (option Intake)) :
  avgIntakePoints (x :: l)
  = (inject_Z (Spec.sumZ (List.map pointsOrZero (x :: l)))
     / inject_Z (Z.of_nat (List.length (x :: l))))%Q.
Proof.
  unfold avgIntakePoints. cbv zeta.
  rewrite fold_left_pointsOrZero, Z.add_0_l.
  replace (0 <? Z.of_nat (List.length (x :: l))) with true; [reflexivity |].
  symmetry. apply Z.ltb_lt. simpl List.length. lia.
Qed.

Lemma pointsOrZero_range (x : option Intake) :
  water_recorded_nonneg x -> 0 <= pointsOrZero x <= 20.
Proof.
  destruct x as [i |]; cbn [pointsOrZero water_recorded_nonneg]; [| lia].
  intros H. destruct (intake_points_range i) as [H1 H2].
  specialize (H2 H). lia.
Qed.

Lemma avgIntakePoints_range (l : list (option Intake)) :
  Forall water_recorded_nonneg l ->
  (0 <= avgIntakePoints l <= 20)%Q.
Proof.
  intros H. destruct l as [| x l].
  - unfold avgIntakePoints. simpl. split; unfold Qle; simpl; lia.
  - rewrite avgIntakePoints_closed.
    assert (Hb : Forall (fun p => 0 <= p <= 20) (List.map pointsOrZero (x :: l))).
    { apply Forall_map. eapply Forall_impl; [| exact H].
      intros y Hy. apply pointsOrZero_range, Hy. }
    pose proof (sumZ_bounds _ 0 20 Hb) as Hs.
    rewrite length_map in Hs.
    set (n := Z.of_nat (List.length (x :: l))) in *.
    set (t := Spec.sumZ (List.map pointsOrZero (x :: l))) in *.
    assert (Hn : 0 < n) by (unfold n; simpl List.length; lia).
    assert (Hq : (0 < inject_Z n)%Q).
    { change 0%Q with (inject_Z 0). rewrite <- Zlt_Qlt. exact Hn. }
    split.
    + apply Qle_shift_div_l; [exact Hq |].
      rewrite Qmult_0_l. change 0%Q with (inject_Z 0).
      rewrite <- Zle_Qle. lia.
    + apply Qle_shift_div_r; [exact Hq |].
      change 20%Q with (inject_Z 20). rewrite <- inject_Z_mult, <- Zle_Qle. lia.
Qed.

(** X5. In the analytics view a date whose intake request failed counts
    as zero points and stays in the denominator of the average. When no
    fetched record has a negative glass count, the average lies between 0
    and 20, and the extended score is the rounded sum of base score and
    average capped at 100: at least the rounded base score when that is at
    most 100, and at most 20 above it. *)
Theorem X5_analytics_extended_score
    (dailyScore : Q) (x : option Intake) (l : list (option Intake)) :
  Forall water_recorded_nonneg (x :: l) ->
  avgIntakePoints (x :: l)
  = (inject_Z (Spec.sumZ (List.map pointsOrZero (x :: l)))
     / inject_Z (Z.of_nat (List.length (x :: l))))%Q
  /\ (0 <= avgIntakePoints (x :: l) <= 20)%Q
  /\ extendedDailyScore dailyScore (x :: l) <= 100
  /\ extendedDailyScore dailyScore (x :: l) <= Math_round dailyScore + 20
  /\ (Math_round dailyScore <= 100 ->
      Math_round dailyScore <= extendedDailyScore dailyScore (x :: l))
  /\ extendedDailyScore dailyScore [] = Z.min 100 (Math_round dailyScore).
Proof.
  intros H. pose proof (avgIntakePoints_range (x :: l) H) as [H0 H20].
  split; [apply avgIntakePoints_closed |].
  split; [split; assumption |].
  unfold extendedDailyScore.
  assert (Hlo : Math_round dailyScore
                <= Math_round (dailyScore + avgIntakePoints (x :: l))).
  { apply Math_round_mono.
    rewrite <- (Qplus_0_r dailyScore) at 1. apply Qplus_le_r. exact H0. }
  assert (Hhi : Math_round (dailyScore + avgIntakePoints (x :: l))
                <= Math_round dailyScore + 20).
  { rewrite <- Math_round_plus_Z. apply Math_round_mono.
    apply Qplus_le_r. exact H20. }
  split; [lia |]. split; [lia |]. split; [lia |].
  f_equal. unfold Math_round. apply Qfloor_comp.
  unfold avgIntakePoints. simpl. ring.
Qed.

Lemma X5_analytics_extended_score_witness :
  extendedDailyScore 60
    [Some {| water_count := 6; breakfast_time := Some "08:00"%string;
             lunch_time := None; dinner_time := None |}; None] <= 100.
Proof.
  assert (H : Forall water_recorded_nonneg
                [Some {| water_count := 6; breakfast_time := Some "08:00"%string;
                         lunch_time := None; dinner_time := None |}; None]).
  { apply Forall_cons; [cbn; lia |]. apply Forall_cons; [exact I |].
    apply Forall_nil. }
  destruct (X5_analytics_extended_score 60 _ _ H) as (_ & _ & Hle & _).
  exact Hle.
Defined.

End AnalyticsScore.

Section LoadGauge.

Import Scoring.

Lemma load_percent_mono (x y : Q) :
  (x <= y)%Q -> Spec.load_percent x <= Spec.load_percent y.
Proof.
  intros H. unfold Spec.load_percent.
  assert (Math_round (x / 240 * 100) <= Math_round (y / 240 * 100)).
  { apply Math_round_mono.
    apply Qmult_le_compat_r; [| unfold Qle; simpl; lia].
    apply Qmult_le_compat_r; [exact H | unfold Qle; simpl; lia]. }
  lia.
Qed.

Lemma sumQ_app (l1 l2 : list Q) :
  (Spec.sumQ (l1 ++ l2) == Spec.sumQ l1 + Spec.sumQ l2)%Q.
Proof.
  induction l1 as [| x l1 IH]; simpl.
  - ring.
  - rewrite IH. ring.
Qed.

(** The rated minutes with one more session in the list. *)
Lemma accumulated_insert (l1 l2 : list Session) (s : Session) :
  (Spec.accumulated_load (List.filter has_outcome (l1 ++ s :: l2))
   == Spec.accumulated_load (List.filter has_outcome (l1 ++ l2))
      + (if has_outcome s then Spec.load_weight s else 0))%Q.
Proof.
  unfold Spec.accumulated_load.
  rewrite !filter_app, !List.map_app, !sumQ_app. simpl List.filter.
  destruct (has_outcome s); simpl; ring.
Qed.

Lemma load_weight_sign (s : Session) :
  0 <= or_zero (duration_minutes s) ->
  match work_type (context s) with
  | Deep | Shallow => (0 <= Spec.load_weight s)%Q
  | Recovery => (Spec.load_weight s <= 0)%Q
  | Maintenance | Unknown => (Spec.load_weight s == 0)%Q
  end.
Proof.
  intros H. unfold Spec.load_weight. cbv zeta.
  destruct (work_type (context s)); unfold Qle, Qeq; simpl; lia.
Qed.

(** X6. Putting one more session with a non-negative duration anywhere in
    the day's list moves the load gauge in one direction only: a Deep or
    Shallow session never lowers it, a Recovery session never raises it,
    and a Maintenance or Unknown session, or any session without an
    outcome, leaves it unchanged. *)
Theorem X6_system_load_direction (l1 l2 : list Session) (s : Session) :
  0 <= or_zero (duration_minutes s) ->
  (has_outcome s = false ->
   calculateSystemLoad (l1 ++ s :: l2) = calculateSystemLoad (l1 ++ l2))
  /\ match work_type (context s) with
     | Deep | Shallow =>
         calculateSystemLoad (l1 ++ l2) <= calculateSystemLoad (l1 ++ s :: l2)
     | Recovery =>
         calculateSystemLoad (l1 ++ s :: l2) <= calculateSystemLoad (l1 ++ l2)
     | Maintenance | Unknown =>
         calculateSystemLoad (l1 ++ s :: l2) = calculateSystemLoad (l1 ++ l2)
     end.
Proof.
  intros Hd.
  rewrite !calculateSystemLoad_rated.
  pose proof (accumulated_insert l1 l2 s) as E.
  pose proof (load_weight_sign s Hd) as Hs.
  set (a := Spec.accumulated_load (List.filter has_outcome (l1 ++ l2))) in *.
  set (b := Spec.accumulated_load (List.filter has_outcome (l1 ++ s :: l2))) in *.
  split.
  - intros Hu. rewrite Hu in E. apply load_percent_comp. rewrite E. ring.
  - destruct (has_outcome s).
    + destruct (work_type (context s)).
      * apply load_percent_mono. rewrite E.
        rewrite <- (Qplus_0_r a) at 1. apply Qplus_le_r. exact Hs.
      * apply load_percent_mono. rewrite E.
        rewrite <- (Qplus_0_r a) at 1. apply Qplus_le_r. exact Hs.
      * apply load_percent_comp. rewrite E, Hs. ring.
      * apply load_percent_mono. rewrite E.
        rewrite <- (Qplus_0_r a) at 2. apply Qplus_le_r. exact Hs.
      * apply load_percent_comp. rewrite E, Hs. ring.
    + assert (Eq : (b == a)%Q) by (rewrite E; ring).
      rewrite (load_percent_comp b a Eq).
      destruct (work_type (context s)); lia.
Qed.

Lemma X6_system_load_direction_witness :
  calculateSystemLoad ([ratedSession Deep 90] ++ ratedSession Recovery 30 :: [])
  <= calculateSystemLoad ([ratedSession Deep 90] ++ []).
Proof.
  assert (H : 0 <= or_zero (duration_minutes (ratedSession Recovery 30)))
    by (cbn; lia).
  exact (proj2 (X6_system_load_direction [ratedSession Deep 90] []
                  (ratedSession Recovery 30) H)).
Defined.

(** X7. The gauge saturates: it reads 100 as soon as the rated sessions
    accumulate 240 load minutes or more, and 0 whenever the Recovery
    credit brings the accumulated minutes to zero or below. *)
Theorem X7_system_load_saturation (sessions : list Session) :
  ((240 <= Spec.accumulated_load (List.filter has_outcome sessions))%Q ->
   calculateSystemLoad sessions = 100)
  /\ ((Spec.accumulated_load (List.filter has_outcome sessions) <= 0)%Q ->
      calculateSystemLoad sessions = 0).
Proof.
  rewrite calculateSystemLoad_rated.
  set (a := Spec.accumulated_load (List.filter has_outcome sessions)).
  split; intros H.
  - pose proof (load_percent_mono 240 a H) as Hm.
    pose proof (load_percent_range a) as Hr.
    change (Spec.load_percent 240) with 100 in Hm. lia.
  - pose proof (load_percent_mono a 0 H) as Hm.
    pose proof (load_percent_range a) as Hr.
    change (Spec.load_percent 0) with 0 in Hm. lia.
Qed.

Lemma X7_system_load_saturation_witness :
  calculateSystemLoad [ratedSession Deep 200; ratedSession Shallow 200] = 100.
Proof.
  apply (proj1 (X7_system_load_saturation
                  [ratedSession Deep 200; ratedSession Shallow 200])).
  unfold Qle. vm_compute. discriminate.
Defined.

End LoadGauge.

(* ================================================================== *)
(** * Further properties of dates, durations and their texts *)
(* ================================================================== *)

Section Weeks.

Import JSDate.

Variable tz : Z.

(** X8. Every day of a week leads back to the same Monday: from the
    Monday that [mondayOfWeek] returns, the dates zero to six days later
    all have that Monday as their week start (so the function is
    idempotent), and the date seven days later starts the next week. *)
Theorem X8_monday_of_week_partitions (d : Date) (k : Z) :
  0 <= k <= 6 ->
  mondayOfWeek tz (addDays (mondayOfWeek tz d) k) = mondayOfWeek tz d
  /\ mondayOfWeek tz (mondayOfWeek tz d) = mondayOfWeek tz d
  /\ mondayOfWeek tz (addDays (mondayOfWeek tz d) 7)
     = addDays (mondayOfWeek tz d) 7.
Proof.
  intros Hk.
  set (m := mondayOfWeek tz d).
  assert (Hm : getDay tz m = 1).
  { unfold m, mondayOfWeek. rewrite getDay_addDays.
    pose proof (getDay_range tz d) as Hr.
    destruct (getDay tz d =? 0) eqn:E0.
    - apply Z.eqb_eq in E0. rewrite E0. reflexivity.
    - replace (getDay tz d + (1 - getDay tz d)) with 1 by ring. reflexivity. }
  assert (Hshift : forall j, 0 <= j <= 6 -> mondayOfWeek tz (addDays m j) = m).
  { intros j Hj. unfold mondayOfWeek at 1.
    rewrite getDay_addDays, Hm.
    destruct (Z.eq_dec j 6) as [-> | Hne].
    - change ((1 + 6) mod 7) with 0. cbn [Z.eqb].
      rewrite addDays_addDays. apply addDays_0.
    - rewrite (Z.mod_small (1 + j) 7) by lia.
      destruct (1 + j =? 0) eqn:E0; [apply Z.eqb_eq in E0; lia |].
      rewrite addDays_addDays.
      replace (j + (1 - (1 + j))) with 0 by ring. apply addDays_0. }
  split; [apply Hshift, Hk |]. split.
  - rewrite <- (addDays_0 m) at 1. apply Hshift. lia.
  - unfold mondayOfWeek at 1. rewrite getDay_addDays, Hm.
    change ((1 + 7) mod 7) with 1. cbn [Z.eqb].
    rewrite addDays_addDays. reflexivity.
Qed.

End Weeks.

Lemma X8_monday_of_week_partitions_witness :
  JSDate.mondayOfWeek 0 (JSDate.addDays (JSDate.mondayOfWeek 0 monday_noon) 3)
  = JSDate.mondayOfWeek 0 monday_noon.
Proof.
  apply (proj1 (X8_monday_of_week_partitions 0 monday_noon 3 ltac:(lia))).
Defined.

Section Durations.

Import SleepLog Formatting.

Lemma calculateDuration_div (s e : Z) :
  calculateDuration (Some s) (Some e) = Z.max 0 ((e - s) / 60000).
Proof. unfold calculateDuration. cbv zeta. rewrite floor_minutes. reflexivity. Qed.

(** X9. The sleep duration is 0 while either time field is empty; it
    depends only on the distance between the two time stamps (shifting
    both by the same amount, as a change of time zone does, leaves it
    unchanged); and it grows with a later wake time and shrinks with a
    later bed time. *)
Theorem X9_sleep_duration_shift_and_order (s e s' e' k : Z) (x : option Z) :
  s' <= s -> e <= e' ->
  calculateDuration None x = 0
  /\ calculateDuration x None = 0
  /\ calculateDuration (Some (s + k)) (Some (e + k))
     = calculateDuration (Some s) (Some e)
  /\ calculateDuration (Some s) (Some e) <= calculateDuration (Some s') (Some e').
Proof.
  intros Hs He.
  split; [reflexivity |].
  split; [destruct x; reflexivity |].
  rewrite !calculateDuration_div.
  split.
  - replace (e + k - (s + k)) with (e - s) by ring. reflexivity.
  - assert ((e - s) / 60000 <= (e' - s') / 60000)
      by (apply Z.div_le_mono; lia).
    lia.
Qed.

Lemma X9_sleep_duration_shift_and_order_witness :
  calculateDuration (Some 3600000) (Some 7200000)
  <= calculateDuration (Some 0) (Some 9000000).
Proof.
  apply (X9_sleep_duration_shift_and_order 3600000 7200000 0 9000000 0 None
           ltac:(lia) ltac:(lia)).
Defined.

Lemma rem_nonneg (n : Z) : 0 <= n -> Z.rem n 60 = n mod 60.
Proof. intros H. apply Z.rem_mod_nonneg; lia. Qed.

(** X10. For a non-negative number of minutes both duration texts show
    [h] hours and [m] minutes with [60 * h + m] equal to the minutes and
    [m] below 60; a missing duration reads like zero minutes; and the
    sleep form's calculated duration is always shown this way. *)
Theorem X10_duration_text_recomposes (mins s e : Z) :
  0 <= mins ->
  formatDurationHM (Some mins) = hm (mins / 60) (mins mod 60)
  /\ formatDuration mins = hm (mins / 60) (mins mod 60)
  /\ 60 * (mins / 60) + mins mod 60 = mins
  /\ 0 <= mins / 60 /\ 0 <= mins mod 60 < 60
  /\ formatDurationHM None = formatDurationHM (Some 0)
  /\ formatDuration (calculateDuration (Some s) (Some e))
     = hm (calculateDuration (Some s) (Some e) / 60)
          (calculateDuration (Some s) (Some e) mod 60).
Proof.
  intros H.
  split.
  { unfold formatDurationHM. destruct mins as [| p | p]; [reflexivity | | lia].
    rewrite rem_nonneg by lia. reflexivity. }
  split; [unfold formatDuration; rewrite rem_nonneg by lia; reflexivity |].
  split; [symmetry; apply Z.div_mod; lia |].
  split; [apply Z.div_pos; lia |].
  split; [apply Z.mod_pos_bound; lia |].
  split; [reflexivity |].
  unfold formatDuration. rewrite rem_nonneg; [reflexivity |].
  rewrite calculateDuration_div. lia.
Qed.

Lemma X10_duration_text_recomposes_witness :
  formatDurationHM (Some 135) = "2h 15m"%string.
Proof.
  rewrite (proj1 (X10_duration_text_recomposes 135 0 0 ltac:(lia))).
  reflexivity.
Defined.

Lemma two_wide_all : forallb two_wide (upto 60) = true.
Proof. vm_compute. reflexivity. Qed.

Lemma upto_In (n : nat) (x : Z) : 0 <= x < Z.of_nat n -> In x (upto n).
Proof.
  intros H. unfold upto. apply in_map_iff. exists (Z.to_nat x).
  split; [lia | apply in_seq; lia].
Qed.

Lemma two_wide_below_60 (x : Z) :
  0 <= x < 60 ->
  String.length (padStart0 2 (SleepVsDeepwork.String_of_Z x)) = 2%nat.
Proof.
  intros H.
  pose proof (proj1 (forallb_forall two_wide (upto 60)) two_wide_all x
                (upto_In 60 x ltac:(lia))) as Hx.
  unfold two_wide in Hx. apply Nat.eqb_eq in Hx. exact Hx.
Qed.

Lemma length_append (a b : string) :
  String.length (a ++ b) = (String.length a + String.length b)%nat.
Proof. induction a as [| c a IH]; simpl; [reflexivity | rewrite IH; reflexivity]. Qed.

(** X11. For a non-negative number of seconds the ticker shows the
    minutes and the seconds on two characters each, around a colon; the
    three numbers it prints recompose to the seconds; and below one hour
    it shows no hour field, so the text is five characters long. *)
Theorem X11_ticker_layout (totalSeconds : Z) :
  0 <= totalSeconds ->
  let h := totalSeconds / 3600 in
  let m := (totalSeconds mod 3600) / 60 in
  let s := totalSeconds mod 60 in
  exists hours : string,
    formatTicker totalSeconds
    = (hours ++ padStart0 2 (SleepVsDeepwork.String_of_Z m) ++ ":"
       ++ padStart0 2 (SleepVsDeepwork.String_of_Z s))%string
    /\ (totalSeconds < 3600 -> hours = EmptyString)
    /\ (3600 <= totalSeconds ->
        hours = (SleepVsDeepwork.String_of_Z h ++ ":")%string)
    /\ String.length (padStart0 2 (SleepVsDeepwork.String_of_Z m)) = 2%nat
    /\ String.length (padStart0 2 (SleepVsDeepwork.String_of_Z s)) = 2%nat
    /\ 3600 * h + 60 * m + s = totalSeconds
    /\ (totalSeconds < 3600 -> String.length (formatTicker totalSeconds) = 5%nat).
Proof.
  intros H h m s.
  assert (Hr1 : Z.rem totalSeconds 3600 = totalSeconds mod 3600)
    by (apply Z.rem_mod_nonneg; lia).
  assert (Hr2 : Z.rem totalSeconds 60 = totalSeconds mod 60)
    by (apply Z.rem_mod_nonneg; lia).
  set (hours := if 0 <? h then (SleepVsDeepwork.String_of_Z h ++ ":")%string
                else EmptyString).
  assert (E : formatTicker totalSeconds
              = (hours ++ padStart0 2 (SleepVsDeepwork.String_of_Z m) ++ ":"
                 ++ padStart0 2 (SleepVsDeepwork.String_of_Z s))%string).
  { unfold formatTicker. cbv zeta. rewrite Hr1, Hr2. reflexivity. }
  pose proof (Z.mod_pos_bound totalSeconds 3600 ltac:(lia)) as Hb1.
  pose proof (Z.mod_pos_bound totalSeconds 60 ltac:(lia)) as Hb2.
  assert (Hm : 0 <= m < 60).
  { unfold m. split; [apply Z.div_pos; lia |].
    apply Z.div_lt_upper_bound; lia. }
  assert (Lm := two_wide_below_60 m Hm).
  assert (Ls := two_wide_below_60 s Hb2).
  assert (Hsmall : totalSeconds < 3600 -> hours = EmptyString).
  { intros Hlt. unfold hours.
    replace h with 0 by (unfold h; symmetry; apply Z.div_small; lia).
    reflexivity. }
  exists hours.
  split; [exact E |]. split; [exact Hsmall |].
  split.
  { intros Hge. unfold hours.
    assert (1 <= h) by (unfold h; apply Z.div_le_lower_bound; lia).
    destruct (0 <? h) eqn:E0; [reflexivity | apply Z.ltb_ge in E0; lia]. }
  split; [exact Lm |]. split; [exact Ls |].
  split.
  - unfold h, m, s. clear. Z.div_mod_to_equations. lia.
  - intros Hlt. rewrite E, (Hsmall Hlt).
    change (EmptyString ++ ?x)%string with x.
    rewrite !length_append, Lm, Ls. reflexivity.
Qed.

Lemma X11_ticker_layout_witness :
  String.length (formatTicker 754) = 5%nat.
Proof.
  destruct (X11_ticker_layout 754 ltac:(lia)) as (hours & _ & _ & _ & _ & _ & _ & H5).
  apply H5. lia.
Defined.

End Durations.

(* ================================================================== *)
(** * Further properties of the calendar heat map *)
(* ================================================================== *)

Section HeatmapData.

Import JSDate CalendarHeatmap.

Lemma dataMap_snoc (data : list Item) (item : Item) :
  dataMap (data ++ [item])
  = <[item_date item := item_value item]> (dataMap data).
Proof. unfold dataMap. rewrite fold_left_app. reflexivity. Qed.

(** X12. The lookup table of the heat map returns, for a date, the value
    of the last entry of [data] that carries this date, and nothing when no
    entry does: an entry appended to the data is found under its date and
    changes the lookup of no other date. *)
Theorem X12_heatmap_lookup_last_entry_wins
    (data : list Item) (item : Item) (d : Z) :
  dataMap data !! d
  = option_map item_value
      (List.find (fun it => item_date it =? d) (rev data))
  /\ dataMap (data ++ [item]) !! item_date item = Some (item_value item)
  /\ (d <> item_date item ->
      dataMap (data ++ [item]) !! d = dataMap data !! d)
  /\ (dataMap data !! d = None
      <-> forall it, In it data -> item_date it <> d).
Proof.
  assert (Closed : forall l,
    dataMap l !! d
    = option_map item_value (List.find (fun it => item_date it =? d) (rev l))).
  { induction l as [| x l IH] using rev_ind.
    - unfold dataMap. simpl. apply lookup_empty.
    - rewrite dataMap_snoc, rev_app_distr. simpl.
      destruct (item_date x =? d) eqn:E.
      + apply Z.eqb_eq in E. subst d. simpl. apply lookup_insert_eq.
      + apply Z.eqb_neq in E. rewrite lookup_insert_ne by exact E. exact IH. }
  split; [apply Closed |].
  split; [rewrite dataMap_snoc; apply lookup_insert_eq |].
  split.
  - intros Hne. rewrite dataMap_snoc. apply lookup_insert_ne. congruence.
  - rewrite Closed. split.
    + intros Hn it Hin Hd.
      destruct (List.find (fun it => item_date it =? d) (rev data)) as [y |] eqn:Ef;
        [discriminate |].
      pose proof (find_none _ _ Ef it (proj1 (in_rev data it) Hin)) as Hc.
      cbv beta in Hc. apply Z.eqb_neq in Hc. contradiction.
    + intros Hall.
      destruct (List.find (fun it => item_date it =? d) (rev data)) as [y |] eqn:Ef;
        [| reflexivity].
      apply find_some in Ef. destruct Ef as [Hin Hd].
      apply Z.eqb_eq in Hd. apply in_rev in Hin.
      exfalso. exact (Hall y Hin Hd).
Qed.

Lemma X12_heatmap_lookup_last_entry_wins_witness :
  dataMap ([{| item_date := 20000; item_value := 40 |}]
           ++ [{| item_date := 20000; item_value := 75 |}]) !! 20001
  = dataMap [{| item_date := 20000; item_value := 40 |}] !! 20001.
Proof.
  destruct (X12_heatmap_lookup_last_entry_wins
              [{| item_date := 20000; item_value := 40 |}]
              {| item_date := 20000; item_value := 75 |} 20001)
    as (_ & _ & H & _).
  apply H. cbn [item_date]. intros E. discriminate E.
Defined.

End HeatmapData.

Section HeatmapToday.

Import JSDate CalendarHeatmap.

Variable tz : Z.
Variable data : list Item.



End HeatmapToday.


Section HeatmapColors.

Import CalendarHeatmap.

(** X14. [getColor] always returns a class for the two kinds of heat map,
    and for every kind on a future cell or a cell without data; it returns
    nothing exactly for a past cell with data under another kind. A past
    cell whose value is 0 gets the class of a cell without data. *)
Theorem X14_heatmap_color_defined (type : string) (cell : Cell) (d : Z) :
  (String.eqb type "performance" || String.eqb type "sleep" = true ->
   exists cls, getColor type cell = Some cls)
  /\ (getColor type cell = None
      <-> inFuture cell = false
          /\ (exists v, value cell = Some v)
          /\ String.eqb type "performance" = false
          /\ String.eqb type "sleep" = false)
  /\ getColor "performance" {| date := d; value := Some 0%Q; inFuture := false |}
     = getColor "performance" {| date := d; value := None; inFuture := false |}
  /\ getColor "sleep" {| date := d; value := Some 0%Q; inFuture := false |}
     = getColor "sleep" {| date := d; value := None; inFuture := false |}.
Proof.
  split; [| split; [| split; reflexivity]].
  - intros Ht. unfold getColor.
    destruct (inFuture cell); [eexists; reflexivity |].
    destruct (value cell) as [v |]; [| eexists; reflexivity].
    destruct (String.eqb type "performance").
    + destruct (Qeq_bool v 0); [eexists; reflexivity |].
      destruct (Qlt_le_dec v 30); [eexists; reflexivity |].
      destruct (Qlt_le_dec v 60); [eexists; reflexivity |].
      destruct (Qlt_le_dec v 80); eexists; reflexivity.
    + destruct (String.eqb type "sleep"); [| discriminate].
      destruct (Qeq_bool v 0); [eexists; reflexivity |].
      destruct (Qlt_le_dec v 300); [eexists; reflexivity |].
      destruct (Qlt_le_dec v 420); eexists; reflexivity.
  - unfold getColor. split.
    + destruct (inFuture cell); [discriminate |].
      destruct (value cell) as [v |]; [| discriminate].
      destruct (String.eqb type "performance").
      * destruct (Qeq_bool v 0); [discriminate |].
        destruct (Qlt_le_dec v 30); [discriminate |].
        destruct (Qlt_le_dec v 60); [discriminate |].
        destruct (Qlt_le_dec v 80); discriminate.
      * destruct (String.eqb type "sleep").
        -- destruct (Qeq_bool v 0); [discriminate |].
           destruct (Qlt_le_dec v 300); [discriminate |].
           destruct (Qlt_le_dec v 420); discriminate.
        -- intros _. repeat split. exists v. reflexivity.
    + intros (Hf & (v & Hv) & Hp & Hs). rewrite Hf, Hv, Hp, Hs. reflexivity.
Qed.

Lemma X14_heatmap_color_defined_witness :
  exists cls,
    getColor "sleep" {| date := 0; value := Some 450%Q; inFuture := false |}
    = Some cls.
Proof.
  apply (X14_heatmap_color_defined "sleep"
           {| date := 0; value := Some 450%Q; inFuture := false |} 0).
  reflexivity.
Defined.

End HeatmapColors.

(* ================================================================== *)
(** * Further properties of the intake panel *)
(* ================================================================== *)

Section Hydration.

Import BiologicalState Engine.

Lemma full_counter_all :
  forallb (fun h => forallb (full_counter_check h) (upto 60)) (upto 24) = true.
Proof. vm_compute. reflexivity. Qed.

Lemma Status_eqb_eq (a b : Status) : Status_eqb a b = true -> a = b.
Proof. destruct a, b; simpl; congruence. Qed.

(** X15. The panel caps the counter at eight glasses, but the expected
    count keeps growing with the clock, up to eleven: with all eight
    glasses logged the hydration status is ok only before 20:30, a
    warning from 20:30 to 21:59, and critical from 22:00 on. *)
Theorem X15_hydration_status_with_full_counter
    (i : Intake) (hours minutes : Z) :
  water_count i = 8 ->
  0 <= hours <= 23 -> 0 <= minutes <= 59 ->
  waterStatus i hours minutes
  = (if 60 * hours + minutes <? 1230 then ok
     else if 60 * hours + minutes <? 1320 then warn
     else crit)
  /\ 0 <= expectedWater hours minutes <= 11.
Proof.
  intros Hw Hh Hm.
  pose proof (proj1 (forallb_forall _ _) full_counter_all hours
                (upto_In 24 hours ltac:(lia))) as H1.
  cbv beta in H1.
  pose proof (proj1 (forallb_forall _ _) H1 minutes
                (upto_In 60 minutes ltac:(lia))) as H2.
  unfold full_counter_check in H2.
  apply andb_true_iff in H2. destruct H2 as [H2 Hhi].
  apply andb_true_iff in H2. destruct H2 as [Hst Hlo].
  apply Status_eqb_eq in Hst.
  apply Z.leb_le in Hhi. apply Z.leb_le in Hlo.
  split; [| lia].
  unfold waterStatus. rewrite Hw. exact Hst.
Qed.

Lemma X15_hydration_status_with_full_counter_witness :
  waterStatus {| water_count := 8; breakfast_time := None;
                 lunch_time := None; dinner_time := None |} 22 15 = crit.
Proof.
  apply (X15_hydration_status_with_full_counter
           {| water_count := 8; breakfast_time := None;
              lunch_time := None; dinner_time := None |} 22 15
           eq_refl ltac:(lia) ltac:(lia)).
Defined.

End Hydration.

Section PanelInvariants.

Import BiologicalState Engine.

Lemma step_water_nonneg (st : State) (ev : Event) :
  water_nonneg_inv st -> water_nonneg_inv (step st ev).
Proof.
  unfold water_nonneg_inv. intros [H0 Hrm].
  destruct ev as [| | type | | post_ok now]; simpl.
  - unfold requestWater.
    destruct (8 <=? water_count (intake st)); [split; assumption |].
    simpl. split; [exact H0 | discriminate].
  - unfold requestRemoveWater.
    destruct (water_count (intake st) <=? 0) eqn:E; [split; assumption |].
    apply Z.leb_gt in E. simpl. split; [exact H0 | intros _; exact E].
  - unfold requestMeal.
    destruct (truthy_string _); [split; assumption |].
    simpl. split; [exact H0 | discriminate].
  - split; [exact H0 | discriminate].
  - unfold confirmAction.
    destruct (confirmMode st) as [[| | type] |] eqn:Em.
    + destruct post_ok; simpl; (split; [lia | try rewrite Em; discriminate]).
    + specialize (Hrm eq_refl). simpl. split; [lia | discriminate].
    + destruct post_ok; simpl; rewrite water_count_set_meal_time;
        (split; [exact H0 | try rewrite Em; discriminate]).
    + simpl. split; [exact H0 | rewrite Em; discriminate].
Qed.

(** X16. Whatever the operator clicks and whether or not the server
    answers, the glass counter of the panel never becomes negative: a
    removal is only offered while a glass is logged, and confirming it
    always closes the request. In particular this holds from the initial
    state of the panel. *)
Theorem X16_water_counter_never_negative (st : State) (evs : list Event) :
  water_nonneg_inv st ->
  0 <= water_count (intake (run st evs))
  /\ 0 <= water_count (intake (run init evs)).
Proof.
  assert (G : forall s, water_nonneg_inv s -> water_nonneg_inv (run s evs)).
  { induction evs as [| ev evs IH]; intros s Hs; [exact Hs |].
    simpl. apply IH. apply step_water_nonneg. exact Hs. }
  intros H. split.
  - exact (proj1 (G st H)).
  - apply (G init). unfold water_nonneg_inv, init. simpl.
    split; [lia | discriminate].
Qed.

Lemma X16_water_counter_never_negative_witness :
  0 <= water_count (intake (run init [ClickRemoveWater; ClickConfirm false EmptyString;
                                      ClickWater; ClickConfirm false EmptyString;
                                      ClickRemoveWater; ClickConfirm true EmptyString;
                                      ClickConfirm true EmptyString])).
Proof.
  apply (X16_water_counter_never_negative init).
  unfold water_nonneg_inv, init. simpl. split; [lia | discriminate].
Defined.

Lemma meal_time_set_other (i : Intake) (m m' : Meal) (t : string) :
  m <> m' -> meal_time (set_meal_time i m' t) m = meal_time i m.
Proof. destruct m, m'; intros H; try reflexivity; contradiction. Qed.

Lemma meal_time_set_water (i : Intake) (m : Meal) (n : Z) :
  meal_time (set_water i n) m = meal_time i m.
Proof. destruct m; reflexivity. Qed.

Lemma step_keeps_logged_meal (st : State) (ev : Event) (m : Meal) (t : string) :
  posts_resolve ev = true ->
  meal_time (intake st) m = Some t ->
  truthy_string (Some t) = true ->
  confirmMode st <> Some (MealAdd m) ->
  meal_time (intake (step st ev)) m = Some t
  /\ confirmMode (step st ev) <> Some (MealAdd m).
Proof.
  intros Hev Ht Htr Hmode.
  destruct ev as [| | type | | post_ok now]; simpl.
  - unfold requestWater. destruct (8 <=? _); simpl; split; try assumption;
      discriminate.
  - unfold requestRemoveWater. destruct (_ <=? 0); simpl; split;
      try assumption; discriminate.
  - unfold requestMeal.
    destruct (truthy_string (meal_time (intake st) type)) eqn:E;
      [split; assumption |].
    simpl. split; [exact Ht |].
    intros [= ->]. rewrite Ht, Htr in E. discriminate.
  - split; [exact Ht | discriminate].
  - simpl in Hev. subst post_ok. unfold confirmAction.
    destruct (confirmMode st) as [[| | type] |] eqn:Em; simpl.
    + rewrite meal_time_set_water. split; [exact Ht | discriminate].
    + rewrite meal_time_set_water. split; [exact Ht | discriminate].
    + assert (Hne : m <> type) by (intros ->; apply Hmode; reflexivity).
      rewrite (meal_time_set_other _ m type now Hne).
      split; [exact Ht | discriminate].
    + split; [exact Ht | rewrite Em; discriminate].
Qed.

(** X17. While every confirmation's request to the server succeeds, a
    meal that is logged (and has no confirmation pending) keeps its time
    stamp whatever is clicked afterwards, further clicks on its button are
    ignored, and its status is ok at every hour of the day. *)
Theorem X17_logged_meal_is_kept
    (st : State) (evs : list Event) (m : Meal) (t : string) (hour : Z) :
  forallb posts_resolve evs = true ->
  meal_time (intake st) m = Some t ->
  truthy_string (Some t) = true ->
  confirmMode st <> Some (MealAdd m) ->
  meal_time (intake (run st evs)) m = Some t
  /\ requestMeal m (run st evs) = run st evs
  /\ getMealStatus (intake (run st evs)) hour m = ok.
Proof.
  intros Hall Ht Htr Hmode.
  assert (G : meal_time (intake (run st evs)) m = Some t).
  { revert st Ht Hmode. induction evs as [| ev evs IH]; intros st Ht Hmode;
      [exact Ht |].
    simpl in Hall. apply andb_true_iff in Hall. destruct Hall as [Hev Hall].
    destruct (step_keeps_logged_meal st ev m t Hev Ht Htr Hmode) as [H1 H2].
    simpl. apply (IH Hall); assumption. }
  split; [exact G |]. split.
  - unfold requestMeal. rewrite G, Htr. reflexivity.
  - unfold getMealStatus. rewrite G, Htr. reflexivity.
Qed.

Lemma X17_logged_meal_is_kept_witness :
  meal_time
    (intake (run (run init [ClickMeal lunch; ClickConfirm true "12:30"%string])
                 [ClickMeal lunch; ClickConfirm true "13:45"%string;
                  ClickWater; ClickConfirm true "13:50"%string]))
    lunch = Some "12:30"%string.
Proof.
  apply (X17_logged_meal_is_kept
           (run init [ClickMeal lunch; ClickConfirm true "12:30"%string])
           [ClickMeal lunch; ClickConfirm true "13:45"%string;
            ClickWater; ClickConfirm true "13:50"%string]
           lunch "12:30"%string 15).
  - reflexivity.
  - reflexivity.
  - reflexivity.
  - discriminate.
Defined.

End PanelInvariants.

(* ================================================================== *)
(** * Further properties of the dashboard and the day inspector *)
(* ================================================================== *)

Section RecoveryProtocol.

Import Dashboard Recovery.

Lemma lastCompleted_prefill (st : State) :
  lastCompleted (prefillBioState st) = lastCompleted st.
Proof.
  unfold prefillBioState.
  destruct (lastCompleted st) as [lc |] eqn:E; [| exact E].
  destruct (after lc); [| exact E]. exact E.
Qed.

Lemma lastCompleted_has_after (st : State) (lc : Session) :
  lastCompleted st = Some lc -> exists a, after lc = Some a.
Proof.
  intros H. apply find_some in H. destruct H as [_ H].
  apply andb_true_iff in H. destruct H as [_ H].
  unfold has_after in H. destruct (after lc) as [a |]; [| discriminate].
  exists a. reflexivity.
Qed.

(** X18. The session that the recovery protocol starts is a Recovery
    session of the Health domain named "System Recovery". Its energy and
    stress are those left by the last completed session of today, and 3
    and 7 when there is none; the values standing in the start form are
    never used. Planned duration and resistance are taken from the form. *)
Theorem X18_recovery_start_payload (restActivity : string) (st : State) :
  let ns := handleRestStart restActivity st in
  ns_work_type ns = Recovery
  /\ ns_domain ns = "Health"%string
  /\ ns_project_name ns = "System Recovery"%string
  /\ ns_activity_description ns = restActivity
  /\ planned_duration_min ns = planned_duration_min (newSession st)
  /\ resistance_before ns = resistance_before (newSession st)
  /\ match lastCompleted st with
     | Some lc =>
         exists a, after lc = Some a
                   /\ energy_before ns = energy a
                   /\ stress_before ns = stress a
     | None => energy_before ns = 3 /\ stress_before ns = 7
     end.
Proof.
  unfold handleRestStart. cbv zeta. rewrite lastCompleted_prefill.
  destruct (lastCompleted st) as [lc |] eqn:E.
  - destruct (lastCompleted_has_after st lc E) as [a Ha].
    rewrite (prefillBioState_found st lc a E Ha). cbn.
    repeat split. exists a. repeat split. exact Ha.
  - unfold prefillBioState. rewrite E. cbn. repeat split.
Qed.

End RecoveryProtocol.

Section Sorting.

Context {A : Type}.
Variable cmp : A -> A -> Z.

Lemma insert_perm (x : A) (l : list A) :
  Permutation (JSArray.insert cmp x l) (x :: l).
Proof.
  induction l as [| y l IH]; simpl.
  - apply Permutation_refl.
  - destruct (cmp x y <=? 0).
    + apply Permutation_refl.
    + apply Permutation_trans with (y :: x :: l).
      * apply perm_skip. exact IH.
      * apply perm_swap.
Qed.

Lemma sort_perm (l : list A) : Permutation (JSArray.sort cmp l) l.
Proof.
  induction l as [| x l IH]; simpl.
  - apply perm_nil.
  - apply Permutation_trans with (x :: JSArray.sort cmp l).
    + apply insert_perm.
    + apply perm_skip. exact IH.
Qed.

Hypothesis cmp_total : forall x y, cmp x y <= 0 \/ cmp y x <= 0.
Hypothesis cmp_trans : forall x y z, cmp x y <= 0 -> cmp y z <= 0 -> cmp x z <= 0.

Lemma insert_sorted (x : A) (l : list A) :
  StronglySorted (mayPrecede cmp) l ->
  StronglySorted (mayPrecede cmp) (JSArray.insert cmp x l).
Proof.
  induction 1 as [| y l Hs IH Hy]; simpl.
  - constructor; constructor.
  - destruct (cmp x y <=? 0) eqn:E.
    + apply Z.leb_le in E.
      constructor; [constructor; assumption |].
      constructor; [exact E |].
      rewrite Forall_forall in Hy |- *. intros z Hz.
      exact (cmp_trans x y z E (Hy z Hz)).
    + apply Z.leb_gt in E.
      constructor; [exact IH |].
      rewrite Forall_forall in Hy |- *. intros z Hz.
      apply (Permutation_in _ (insert_perm x l)) in Hz.
      destruct Hz as [<- | Hz].
      * destruct (cmp_total x y) as [H | H]; [lia | exact H].
      * exact (Hy z Hz).
Qed.

Lemma sort_sorted (l : list A) : StronglySorted (mayPrecede cmp) (JSArray.sort cmp l).
Proof.
  induction l as [| x l IH]; simpl; [constructor |].
  apply insert_sorted. exact IH.
Qed.

End Sorting.

Section SessionLists.

Import Dashboard Inspector.

Lemma sortBy_is_sort (cmp : Session -> Session -> Z) (l : list Session) :
  sortBy cmp l = JSArray.sort cmp l.
Proof.
  unfold sortBy, JSArray.sort. induction l as [| x l IH]; simpl; [reflexivity |].
  rewrite IH. generalize (fold_right (JSArray.insert cmp) [] l). intros l'.
  induction l' as [| y l' IH']; simpl; [reflexivity |].
  destruct (cmp x y <=? 0); [reflexivity |]. rewrite IH'. reflexivity.
Qed.

Lemma sorted_impl {B : Type} (R R' : B -> B -> Prop) (l : list B) :
  (forall x y, R x y -> R' x y) -> StronglySorted R l -> StronglySorted R' l.
Proof.
  intros H. induction 1 as [| x l Hs IH Hx]; constructor; [exact IH |].
  eapply Forall_impl; [| exact Hx]. intros y. apply H.
Qed.

(** X19. Sorting loses and invents no session: the dashboard's list after
    a refresh is a rearrangement of the sessions received, with the later
    start first, and the day inspector's list is a rearrangement of them
    with the earlier start first. *)
Theorem X19_session_lists_sorted_permutations
    (sessions : list Session) (st : State) :
  Permutation (todaySessions (refreshData sessions st)) sessions
  /\ StronglySorted laterFirst (todaySessions (refreshData sessions st))
  /\ List.length (todaySessions (refreshData sessions st)) = List.length sessions
  /\ Permutation (JSArray.sort byStartAsc sessions) sessions
  /\ StronglySorted earlierFirst (JSArray.sort byStartAsc sessions).
Proof.
  cbn [refreshData todaySessions]. rewrite sortBy_is_sort.
  pose proof (sort_perm byStartDesc sessions) as P.
  split; [exact P |].
  split.
  { apply (sorted_impl (mayPrecede byStartDesc)).
    - intros x y. unfold mayPrecede, byStartDesc, laterFirst. lia.
    - apply sort_sorted; unfold byStartDesc; intros; lia. }
  split; [apply Permutation_length; exact P |].
  split; [apply sort_perm |].
  apply (sorted_impl (mayPrecede byStartAsc)).
  - intros x y. unfold mayPrecede, byStartAsc, earlierFirst. lia.
  - apply sort_sorted; unfold byStartAsc; intros; lia.
Qed.

End SessionLists.

(* ================================================================== *)
(** * Further properties of the analytics view *)
(* ================================================================== *)

Section DateRanges.

Import JSDate Analytics.








Variable getDate : Date -> Z.


End DateRanges.


Section ChartBounds.

Import SleepVsDeepwork.

Lemma maxWith_ge_floor (xs : list Z) (floor : Z) : floor <= maxWith xs floor.
Proof. induction xs as [| x xs IH]; simpl; lia. Qed.

Lemma maxWith_ge_elem (xs : list Z) (floor x : Z) :
  In x xs -> x <= maxWith xs floor.
Proof.
  induction xs as [| y xs IH]; simpl; [contradiction |].
  intros [-> | H]; [lia |]. specialize (IH H). lia.
Qed.

Lemma scaleY_range (m maxMins : Z) :
  0 <= m <= maxMins -> 0 < maxMins ->
  (0 <= scaleY (Some m) maxMins <= 100)%Q.
Proof.
  intros Hm Hmax. unfold scaleY.
  destruct m as [| p | p]; [split; unfold Qle; simpl; lia | | lia].
  assert (Hq : (0 < inject_Z maxMins)%Q).
  { change 0%Q with (inject_Z 0). rewrite <- Zlt_Qlt. exact Hmax. }
  split.
  - apply Qmult_le_0_compat; [| unfold Qle; simpl; lia].
    apply Qle_shift_div_l; [exact Hq |]. rewrite Qmult_0_l.
    change 0%Q with (inject_Z 0). rewrite <- Zle_Qle. lia.
  - apply Qle_trans with (1 * 100)%Q; [| unfold Qle; simpl; lia].
    apply Qmult_le_compat_r; [| unfold Qle; simpl; lia].
    apply Qle_shift_div_r; [exact Hq |]. rewrite Qmult_1_l.
    rewrite <- Zle_Qle. lia.
Qed.

Lemma scaleY_pos (m maxMins : Z) :
  0 < m -> 0 < maxMins -> (0 < scaleY (Some m) maxMins)%Q.
Proof.
  intros Hm Hmax. unfold scaleY. destruct m as [| p | p]; try lia.
  unfold Qlt, Qdiv, Qmult, Qinv, inject_Z. destruct maxMins as [| q | q]; try lia.
  simpl. lia.
Qed.

(** X22. For a non-empty series without negative minutes the analytics
    chart draws one column per row, in the order of the series, each with
    its row's date; no deep-work bar and no sleep dot is higher than the
    chart (heights lie between 0 and 100 percent), and a dot is drawn
    exactly for the rows whose sleep is recorded and not zero. An empty
    series shows the placeholder instead. *)
Theorem X22_analytics_chart_within_bounds (row : Row) (rows : list Row) :
  Forall (fun r => 0 <= deep_minutes r /\ 0 <= or_zero (sleep_minutes r))
         (row :: rows) ->
  renderAnalytics [] = None
  /\ exists cols,
       renderAnalytics (row :: rows) = Some cols
       /\ List.map tip_date cols = List.map row_date (row :: rows)
       /\ List.map (fun c => match sleep_dot c with Some _ => true | None => false end)
                   cols
          = List.map (fun r => negb (or_zero (sleep_minutes r) =? 0)) (row :: rows)
       /\ Forall (fun c => (0 <= bar_height c <= 100)%Q
                           /\ match sleep_dot c with
                              | Some h => (0 < h <= 100)%Q
                              | None => True
                              end) cols.
Proof.
  intros H. split; [reflexivity |].
  set (data := row :: rows) in *.
  set (maxSleep := maxWith (List.map (fun d => or_zero (sleep_minutes d)) data) 600).
  set (maxDeep := maxWith (List.map deep_minutes data) 300).
  exists (List.map (renderColumn maxSleep maxDeep) data).
  split; [reflexivity |].
  split; [rewrite List.map_map; reflexivity |].
  split.
  { rewrite List.map_map. apply List.map_ext. intros r.
    unfold renderColumn. cbn [sleep_dot].
    destruct (sleep_minutes r) as [[| p | p] |]; reflexivity. }
  apply Forall_map. rewrite Forall_forall in H |- *. intros r Hr.
  destruct (H r Hr) as [Hd Hs].
  assert (HmS : 600 <= maxSleep) by apply maxWith_ge_floor.
  assert (HmD : 300 <= maxDeep) by apply maxWith_ge_floor.
  assert (HdD : deep_minutes r <= maxDeep).
  { apply maxWith_ge_elem. apply in_map. exact Hr. }
  assert (HsS : or_zero (sleep_minutes r) <= maxSleep).
  { apply maxWith_ge_elem.
    apply (in_map (fun d => or_zero (sleep_minutes d))). exact Hr. }
  unfold renderColumn. cbn [bar_height sleep_dot].
  split; [apply scaleY_range; lia |].
  destruct (sleep_minutes r) as [[| p | p] |]; cbn [or_zero] in *; try exact I.
  - split; [apply scaleY_pos; lia | apply scaleY_range; lia].
  - lia.
Qed.

Lemma X22_analytics_chart_within_bounds_witness :
  exists cols, renderAnalytics [day_sleep_absent; day_sleep_zero] = Some cols.
Proof.
  assert (H : Forall (fun r => 0 <= deep_minutes r /\ 0 <= or_zero (sleep_minutes r))
                     [day_sleep_absent; day_sleep_zero]).
  { apply Forall_cons; [cbn; lia |]. apply Forall_cons; [cbn; lia |].
    apply Forall_nil. }
  destruct (X22_analytics_chart_within_bounds day_sleep_absent [day_sleep_zero] H)
    as (_ & cols & Hc & _).
  exists cols. exact Hc.
Defined.

End ChartBounds.

(* ================================================================== *)
(** * Further properties of the timeline bars *)
(* ================================================================== *)

Section TimelineBars.

Import JSDate JSClock Timeline.

Variable tz : Z.

Lemma msOfDay_range (d : Date) : 0 <= msOfDay tz d < MS_PER_DAY.
Proof. unfold msOfDay. apply Z.mod_pos_bound. unfold MS_PER_DAY. lia. Qed.

(** Hours and minutes together count the whole minutes since midnight. *)
Lemma startMinutes_div (d : Date) : startMinutes tz d = msOfDay tz d / 60000.
Proof.
  unfold startMinutes, getHours, getMinutes.
  pose proof (msOfDay_range d) as H. unfold MS_PER_DAY in H.
  generalize dependent (msOfDay tz d). intros ms H.
  Z.div_mod_to_equations. lia.
Qed.

Lemma startMinutes_range (d : Date) : 0 <= startMinutes tz d < 1440.
Proof.
  rewrite startMinutes_div.
  pose proof (msOfDay_range d) as H. unfold MS_PER_DAY in H.
  split; [apply Z.div_pos; lia | apply Z.div_lt_upper_bound; lia].
Qed.

Lemma percent_of_day (x : Z) :
  0 <= x < 1440 -> (0 <= inject_Z x / 1440 * 100)%Q /\ (inject_Z x / 1440 * 100 < 100)%Q.
Proof.
  intros H. unfold Qle, Qlt, Qdiv, Qmult, Qinv, inject_Z. simpl. lia.
Qed.

(** X23. A session bar always starts inside the day strip and is always
    visible: on the dashboard and in the day inspector its left edge lies
    between 0 and 100 percent (100 excluded) and its width is at least
    half a percent, whatever the start time, the duration or the clock.
    Both views put the bar of a session at the same left edge. *)
Theorem X23_session_bar_visible (now : Date) (is_finished : bool) (s : Session) :
  (0 <= pos_left (getPosition tz now is_finished s))%Q
  /\ (pos_left (getPosition tz now is_finished s) < 100)%Q
  /\ (1 # 2 <= pos_width (getPosition tz now is_finished s))%Q
  /\ pos_left (getPositionInspector tz s)
     = pos_left (getPosition tz now is_finished s)
  /\ (1 # 2 <= pos_width (getPositionInspector tz s))%Q.
Proof.
  unfold getPosition, getPositionInspector. cbn [pos_left pos_width].
  destruct (percent_of_day _ (startMinutes_range (start_time s))) as [H0 H1].
  split; [exact H0 |]. split; [exact H1 |].
  split; [apply Q.le_max_l |]. split; [reflexivity | apply Q.le_max_l].
Qed.

Lemma setHours_midnight (d : Date) :
  setHours tz d 0 0 0 0 = d - msOfDay tz d
  /\ setHours tz d 23 59 59 999 = d - msOfDay tz d + (MS_PER_DAY - 1).
Proof. unfold setHours, MS_PER_DAY. split; lia. Qed.

(** Inside the local day that starts at [dayStart], the time of day is
    the distance from [dayStart]. *)
Lemma msOfDay_within (d x : Date) :
  d - msOfDay tz d <= x < d - msOfDay tz d + MS_PER_DAY ->
  msOfDay tz x = x - (d - msOfDay tz d).
Proof.
  unfold msOfDay, MS_PER_DAY. intros H.
  Z.div_mod_to_equations. lia.
Qed.

Lemma sleep_bar_bounds (d os oe : Date) :
  d - msOfDay tz d <= os -> os < oe ->
  oe <= d - msOfDay tz d + (MS_PER_DAY - 1) ->
  (0 <= inject_Z (startMinutes tz os) / 1440 * 100)%Q
  /\ (0 < inject_Z (oe - os) / 1000 / 60 / 1440 * 100)%Q
  /\ (inject_Z (startMinutes tz os) / 1440 * 100
      + inject_Z (oe - os) / 1000 / 60 / 1440 * 100 <= 100)%Q.
Proof.
  intros H1 H2 H3.
  assert (Hms : msOfDay tz os = os - (d - msOfDay tz d)).
  { apply (msOfDay_within d os). unfold MS_PER_DAY in *. lia. }
  pose proof (startMinutes_range os) as Hsm.
  pose proof (startMinutes_div os) as Hsd. rewrite Hms in Hsd.
  set (sm := startMinutes tz os) in *.
  assert (Hfloor : 60000 * sm <= os - (d - msOfDay tz d)).
  { rewrite Hsd. apply Z.mul_div_le. lia. }
  set (w := oe - os) in *.
  assert (Hw : 0 < w) by (unfold w; lia).
  assert (Hsum : 60000 * sm + w <= 86400000).
  { unfold w, MS_PER_DAY in *. lia. }
  split; [apply (percent_of_day sm Hsm) |].
  split.
  - unfold Qlt, Qdiv, Qmult, Qinv, inject_Z. simpl. lia.
  - unfold Qle, Qplus, Qdiv, Qmult, Qinv, inject_Z. simpl. lia.
Qed.

(** X24. When the dashboard draws the sleep bar, the bar is the part of
    the sleep interval that falls on the chart day: it has a positive
    width, starts at 0 percent or later and ends at 100 percent or
    earlier. No bar is drawn when there is no sleep record or when the
    sleep interval does not meet the chart day. *)
Theorem X24_sleep_bar_within_chart_day (today : Z) (sl : SleepTimes) :
  getSleepPosition tz today None = None
  /\ match getSleepPosition tz today (Some sl) with
     | Some p =>
         (0 <= pos_left p)%Q /\ (0 < pos_width p)%Q
         /\ (pos_left p + pos_width p <= 100)%Q
     | None =>
         let dayStart := setHours tz (today * MS_PER_DAY) 0 0 0 0 in
         sleep_end sl <= dayStart
         \/ dayStart + MS_PER_DAY - 1 <= sleep_start sl
         \/ sleep_end sl <= sleep_start sl
     end.
Proof.
  split; [reflexivity |].
  unfold getSleepPosition. cbv zeta.
  destruct (setHours_midnight (today * MS_PER_DAY)) as [E0 E1].
  rewrite E0, E1.
  destruct (sleep_start sl <? today * MS_PER_DAY - msOfDay tz (today * MS_PER_DAY))
    eqn:Ea;
    destruct (today * MS_PER_DAY - msOfDay tz (today * MS_PER_DAY)
              + (MS_PER_DAY - 1) <? sleep_end sl) eqn:Eb;
    try apply Z.ltb_lt in Ea; try apply Z.ltb_ge in Ea;
    try apply Z.ltb_lt in Eb; try apply Z.ltb_ge in Eb;
    match goal with
    | |- context [if ?a <=? ?b then _ else _] =>
        destruct (a <=? b) eqn:Ecmp;
          [apply Z.leb_le in Ecmp | apply Z.leb_gt in Ecmp]
    end;
    cbn [pos_left pos_width];
    try (apply (sleep_bar_bounds (today * MS_PER_DAY));
         unfold MS_PER_DAY in *; lia);
    unfold MS_PER_DAY in *; lia.
Qed.

End TimelineBars.

(* ================================================================== *)
(** * Further properties of the day inspector *)
(* ================================================================== *)

Section InspectorMetrics.

Import Scoring Inspector.

Lemma deepWorkMinutes_sum (l : list Session) :
  deepWorkMinutes l = Spec.total_deep_work_minutes l.
Proof.
  unfold deepWorkMinutes, Spec.total_deep_work_minutes.
  rewrite fold_left_add_sumZ. lia.
Qed.

Lemma totalWorkMinutes_sum (l : list Session) :
  totalWorkMinutes l
  = Spec.sumZ (List.map (fun s => or_zero (duration_minutes s)) l).
Proof. unfold totalWorkMinutes. rewrite fold_left_add_sumZ. lia. Qed.

Lemma deep_le_total (l : list Session) :
  Forall (fun s => 0 <= or_zero (duration_minutes s)) l ->
  0 <= deepWorkMinutes l <= totalWorkMinutes l.
Proof.
  rewrite deepWorkMinutes_sum, totalWorkMinutes_sum.
  unfold Spec.total_deep_work_minutes.
  induction 1 as [| s l Hs _ IH]; simpl; [lia |].
  destruct (WorkType_eqb (work_type (context s)) Deep); simpl; lia.
Qed.

(** X25. With no negative duration, the deep-work minutes never exceed
    the total minutes and the deep-work ratio is a percentage between 0
    and 100; a day without minutes has ratio 0 (no division by zero), and
    a day whose minutes are all deep work has ratio 100. *)
Theorem X25_deep_work_ratio_is_a_percentage (l : list Session) :
  Forall (fun s => 0 <= or_zero (duration_minutes s)) l ->
  0 <= deepWorkMinutes l <= totalWorkMinutes l
  /\ 0 <= deepWorkRatio l <= 100
  /\ (totalWorkMinutes l = 0 -> deepWorkRatio l = 0)
  /\ (0 < totalWorkMinutes l -> deepWorkMinutes l = totalWorkMinutes l ->
      deepWorkRatio l = 100).
Proof.
  intros H. pose proof (deep_le_total l H) as Hdt.
  split; [exact Hdt |].
  unfold deepWorkRatio.
  set (d := deepWorkMinutes l) in *. set (t := totalWorkMinutes l) in *.
  destruct (t =? 0) eqn:E0.
  - apply Z.eqb_eq in E0. repeat split; try lia.
  - apply Z.eqb_neq in E0.
    assert (Ht : 0 < t) by lia.
    assert (Hq : (0 < inject_Z t)%Q).
    { change 0%Q with (inject_Z 0). rewrite <- Zlt_Qlt. exact Ht. }
    assert (Hlo : (0 <= inject_Z d / inject_Z t * 100)%Q).
    { apply Qmult_le_0_compat; [| unfold Qle; simpl; lia].
      apply Qle_shift_div_l; [exact Hq |]. rewrite Qmult_0_l.
      change 0%Q with (inject_Z 0). rewrite <- Zle_Qle. lia. }
    assert (Hhi : (inject_Z d / inject_Z t * 100 <= 100)%Q).
    { apply Qle_trans with (1 * 100)%Q; [| unfold Qle; simpl; lia].
      apply Qmult_le_compat_r; [| unfold Qle; simpl; lia].
      apply Qle_shift_div_r; [exact Hq |]. rewrite Qmult_1_l.
      rewrite <- Zle_Qle. lia. }
    pose proof (Math_round_mono _ _ Hlo) as R0.
    pose proof (Math_round_mono _ _ Hhi) as R1.
    change (Math_round 0) with 0 in R0. change (Math_round 100) with 100 in R1.
    split; [lia |]. split; [lia |].
    intros _ Hall. rewrite Hall.
    assert (Eq : (inject_Z t / inject_Z t * 100 == inject_Z 100)%Q).
    { field. intros Hz. apply (inject_Z_injective t 0) in Hz. lia. }
    unfold Math_round.
    assert (Eq' : (inject_Z t / inject_Z t * 100 + (1 # 2)
                   == (1 # 2) + inject_Z 100)%Q) by (rewrite Eq; ring).
    rewrite (Qfloor_comp _ _ Eq'), Qfloor_plus_Z. reflexivity.
Qed.

Lemma X25_deep_work_ratio_is_a_percentage_witness :
  0 <= deepWorkRatio [ratedSession Deep 90; ratedSession Shallow 30] <= 100.
Proof.
  assert (H : Forall (fun s => 0 <= or_zero (duration_minutes s))
                     [ratedSession Deep 90; ratedSession Shallow 30]).
  { apply Forall_cons; [cbn; lia |]. apply Forall_cons; [cbn; lia |].
    apply Forall_nil. }
  exact (proj1 (proj2 (X25_deep_work_ratio_is_a_percentage _ H))).
Defined.

Lemma avgFocusQuality_closed (l : list Session) :
  avgFocusQuality l
  = match Spec.rated_focus l with
    | [] => 0%Q
    | fs => (inject_Z (Spec.sumZ fs) / inject_Z (Z.of_nat (List.length fs)))%Q
    end.
Proof.
  unfold avgFocusQuality, Spec.rated_focus. cbv zeta.
  rewrite fold_left_add_sumZ, Z.add_0_l.
  rewrite <- (length_map outcome_focus (List.filter has_outcome l)).
  destruct (List.map outcome_focus (List.filter has_outcome l)) as [| x fs];
    [reflexivity |].
  replace (0 <? Z.of_nat (List.length (x :: fs))) with true; [reflexivity |].
  symmetry. apply Z.ltb_lt. simpl List.length. lia.
Qed.

(** X26. The fallback index can be recomputed from the two metrics the
    inspector shows: it is the sum, capped at 100, of a fifth of the
    deep-work minutes (capped at 60), the sleep bonus and the floor of
    four times the average focus quality. With focus ratings on the 1..5
    scale and at least one rated session, that average lies between 1
    and 5. *)
Theorem X26_fallback_index_from_shown_metrics
    (l : list Session) (sleep : option Sleep) :
  calculateFallbackScore l sleep
  = Z.min 100 (Z.min 60 (deepWorkMinutes l / 5)
               + Spec.input_component sleep
               + Qfloor (avgFocusQuality l * 4))
  /\ (Forall (fun s => has_outcome s = true -> 1 <= outcome_focus s <= 5) l ->
      (exists s, In s l /\ has_outcome s = true) ->
      (1 <= avgFocusQuality l <= 5)%Q).
Proof.
  split.
  - rewrite fallback_body. unfold Spec.daily_index, Spec.output_component.
    rewrite deepWorkMinutes_sum. do 2 f_equal.
    unfold Spec.efficiency_component. rewrite avgFocusQuality_closed.
    destruct (Spec.rated_focus l); reflexivity.
  - intros Hf (s & Hs & Hr).
    rewrite avgFocusQuality_closed.
    assert (Hb : Forall (fun x => 1 <= x <= 5) (Spec.rated_focus l)).
    { unfold Spec.rated_focus. apply Forall_map.
      rewrite Forall_forall in Hf |- *. intros y Hy.
      apply filter_In in Hy. destruct Hy as [Hy Hy']. exact (Hf y Hy Hy'). }
    assert (Hne : In (outcome_focus s) (Spec.rated_focus l)).
    { unfold Spec.rated_focus. apply in_map. apply filter_In. split; assumption. }
    pose proof (sumZ_bounds _ 1 5 Hb) as Hsum.
    destruct (Spec.rated_focus l) as [| x fs]; [contradiction |].
    set (n := Z.of_nat (List.length (x :: fs))) in *.
    assert (Hn : 0 < n) by (unfold n; simpl List.length; lia).
    assert (Hq : (0 < inject_Z n)%Q).
    { change 0%Q with (inject_Z 0). rewrite <- Zlt_Qlt. exact Hn. }
    split.
    + apply Qle_shift_div_l; [exact Hq |]. rewrite Qmult_1_l.
      rewrite <- Zle_Qle. lia.
    + apply Qle_shift_div_r; [exact Hq |].
      change 5%Q with (inject_Z 5). rewrite <- inject_Z_mult, <- Zle_Qle. lia.
Qed.

Lemma X26_fallback_index_from_shown_metrics_witness :
  (1 <= avgFocusQuality [ratedSession Deep 90; unratedSession Deep 10] <= 5)%Q.
Proof.
  apply (X26_fallback_index_from_shown_metrics
           [ratedSession Deep 90; unratedSession Deep 10] None).
  - apply Forall_cons; [intros _; cbn; lia |].
    apply Forall_cons; [intros H; discriminate H |]. apply Forall_nil.
  - exists (ratedSession Deep 90). split; [left; reflexivity | reflexivity].
Defined.

End InspectorMetrics.

Section DomainMinutes.

Import Inspector.

Lemma addDomainMinutes_total (m : list (string * Z)) (d : string) (x : Z) :
  entriesTotal (addDomainMinutes m d x) = entriesTotal m + x.
Proof.
  unfold entriesTotal. induction m as [| [name minutes] m IH]; simpl.
  - lia.
  - destruct (String.eqb name d); simpl; lia.
Qed.

Lemma addDomainMinutes_In (m : list (string * Z)) (d : string) (x : Z) (name : string) :
  In name (List.map fst (addDomainMinutes m d x))
  <-> name = d \/ In name (List.map fst m).
Proof.
  induction m as [| [n v] m IH]; cbn [addDomainMinutes].
  - simpl. intuition.
  - destruct (String.eqb n d) eqn:E.
    + apply String.eqb_eq in E. subst n. simpl. intuition.
    + simpl. rewrite IH. intuition.
Qed.

Lemma addDomainMinutes_NoDup (m : list (string * Z)) (d : string) (x : Z) :
  NoDup (List.map fst m) -> NoDup (List.map fst (addDomainMinutes m d x)).
Proof.
  induction m as [| [n v] m IH]; cbn [addDomainMinutes]; intros H.
  - simpl. constructor; [intros [] | constructor].
  - destruct (String.eqb n d) eqn:E; [exact H |].
    apply String.eqb_neq in E. simpl in H |- *.
    inversion H as [| ? ? Hn Hm]; subst.
    constructor; [| apply IH; exact Hm].
    intros Hin. apply addDomainMinutes_In in Hin.
    destruct Hin as [-> | Hin]; [apply E; reflexivity | exact (Hn Hin)].
Qed.

Lemma domainMapOf_facts (sessions : list Session) (m0 : list (string * Z)) :
  NoDup (List.map fst m0) ->
  entriesTotal (domainMapOf sessions m0)
  = entriesTotal m0
    + Spec.sumZ (List.map (fun s => or_zero (duration_minutes s)) sessions)
  /\ NoDup (List.map fst (domainMapOf sessions m0))
  /\ (forall name,
        In name (List.map fst (domainMapOf sessions m0))
        <-> In name (List.map fst m0)
            \/ exists s, In s sessions /\ domain (context s) = name).
Proof.
  revert m0. induction sessions as [| s l IH]; intros m0 Hnd.
  - simpl. split; [lia |]. split; [exact Hnd |].
    intros name. split; [tauto |]. intros [H | (s & [] & _)]. exact H.
  - cbn [domainMapOf fold_left].
    destruct (IH (addDomainMinutes m0 (domain (context s))
                    (or_zero (duration_minutes s)))
                 (addDomainMinutes_NoDup _ _ _ Hnd)) as (Ht & Hn & Hi).
    unfold domainMapOf in *. split; [| split].
    + rewrite Ht, addDomainMinutes_total. simpl. lia.
    + exact Hn.
    + intros name. rewrite Hi, addDomainMinutes_In. split.
      * intros [[-> | H] | (s' & Hs' & Hd)].
        -- right. exists s. split; [left; reflexivity | reflexivity].
        -- left. exact H.
        -- right. exists s'. split; [right; exact Hs' | exact Hd].
      * intros [H | (s' & [<- | Hs'] & Hd)].
        -- left. right. exact H.
        -- left. left. symmetry. exact Hd.
        -- right. exists s'. split; assumption.
Qed.

Lemma sumZ_perm (l l' : list Z) : Permutation l l' -> Spec.sumZ l = Spec.sumZ l'.
Proof. induction 1; simpl; lia. Qed.

(** X27. The per-domain minutes of the day inspector account for every
    minute exactly once: the entries add up to the total minutes of the
    day's sessions, no domain is listed twice, a domain is listed exactly
    when a session of the day belongs to it, and the entries are ordered
    from the most to the fewest minutes. *)
Theorem X27_domain_minutes_conserve_total (sessions : list Session) :
  entriesTotal (getDomainMinutes sessions) = totalWorkMinutes sessions
  /\ NoDup (List.map fst (getDomainMinutes sessions))
  /\ (forall name,
        In name (List.map fst (getDomainMinutes sessions))
        <-> exists s, In s sessions /\ domain (context s) = name)
  /\ StronglySorted moreMinutesFirst (getDomainMinutes sessions).
Proof.
  unfold getDomainMinutes. cbv zeta.
  change (fold_left _ sessions []) with (domainMapOf sessions []).
  destruct (domainMapOf_facts sessions [] (NoDup_nil _)) as (Ht & Hn & Hi).
  set (cmp := fun a b : string * Z => snd b - snd a).
  pose proof (sort_perm cmp (domainMapOf sessions [])) as P.
  split; [| split; [| split]].
  - unfold entriesTotal in *.
    rewrite (sumZ_perm _ _ (Permutation_map snd P)), Ht, totalWorkMinutes_sum.
    simpl. lia.
  - apply (Permutation_NoDup (Permutation_sym (Permutation_map fst P))). exact Hn.
  - intros name. split.
    + intros H. apply (Permutation_in _ (Permutation_map fst P)) in H.
      apply Hi in H. destruct H as [[] | H]. exact H.
    + intros H.
      apply (Permutation_in _ (Permutation_sym (Permutation_map fst P))).
      apply Hi. right. exact H.
  - apply (sorted_impl (mayPrecede cmp)).
    + intros x y. unfold mayPrecede, cmp, moreMinutesFirst. lia.
    + apply sort_sorted; unfold cmp; intros; lia.
Qed.

Lemma X27_domain_minutes_conserve_total_witness :
  In "Work"%string
     (List.map fst (getDomainMinutes
        [{| start_time := 0;
            context := {| domain := "Work"; project_name := EmptyString;
                          activity_description := EmptyString;
                          work_type := Deep |};
            duration_minutes := Some 45; outcome := None; after := None |}])).
Proof.
  apply (X27_domain_minutes_conserve_total
           [{| start_time := 0;
               context := {| domain := "Work"; project_name := EmptyString;
                             activity_description := EmptyString;
                             work_type := Deep |};
               duration_minutes := Some 45; outcome := None; after := None |}]).
  eexists. split; [left; reflexivity | reflexivity].
Defined.

End DomainMinutes.

(* ================================================================== *)
(** * Further properties of the hydration clock, the chart day and the
      two renderers of the sleep series *)
(* ================================================================== *)

Section HydrationClock.

Import Engine.

Lemma hoursAwake_closed (hours minutes : Z) :
  (hoursAwake hours minutes
   == inject_Z (Z.max 0 (60 * (hours - 7) + minutes)) / 60)%Q.
Proof.
  unfold hoursAwake, WAKE_HOUR.
  assert (E : (inject_Z hours - inject_Z 7 + inject_Z minutes / 60
               == inject_Z (60 * (hours - 7) + minutes) / 60)%Q).
  { rewrite inject_Z_plus, inject_Z_mult.
    unfold Z.sub. rewrite inject_Z_plus, inject_Z_opp. field. }
  rewrite E. clear E.
  set (x := 60 * (hours - 7) + minutes).
  destruct (Z_le_gt_dec x 0) as [H | H].
  - rewrite Z.max_l by exact H.
    rewrite Q.max_l; [reflexivity |].
    apply Qle_shift_div_r; [reflexivity |]. rewrite Qmult_0_l.
    change 0%Q with (inject_Z 0). rewrite <- Zle_Qle. exact H.
  - rewrite Z.max_r by lia.
    rewrite Q.max_r; [reflexivity |].
    apply Qle_shift_div_l; [reflexivity |]. rewrite Qmult_0_l.
    change 0%Q with (inject_Z 0). rewrite <- Zle_Qle. lia.
Qed.

Lemma expectedWater_closed (hours minutes : Z) :
  expectedWater hours minutes = Z.max 0 (60 * (hours - 7) + minutes) / 90.
Proof.
  unfold expectedWater, WATER_INTERVAL_HOURS.
  rewrite Zdiv_Qdiv. apply Qfloor_comp.
  rewrite hoursAwake_closed. change (inject_Z 90) with 90%Q. field.
Qed.

(** X28. The expected number of glasses is one per full 90 minutes since
    07:00 (none before). Up to 07:30 the hydration status is ok whatever
    the counter shows; later it is ok as soon as the counter has reached
    the expected number; and logging more glasses never makes the status
    worse. *)
Theorem X28_expected_water_by_the_clock
    (hours minutes current current' : Z) :
  current <= current' ->
  expectedWater hours minutes = Z.max 0 (60 * (hours - 7) + minutes) / 90
  /\ (60 * hours + minutes <= 450 ->
      getWaterStatus (hoursAwake hours minutes) current
                     (expectedWater hours minutes) = ok)
  /\ (expectedWater hours minutes <= current ->
      getWaterStatus (hoursAwake hours minutes) current
                     (expectedWater hours minutes) = ok)
  /\ severity (getWaterStatus (hoursAwake hours minutes) current'
                              (expectedWater hours minutes))
     <= severity (getWaterStatus (hoursAwake hours minutes) current
                                 (expectedWater hours minutes)).
Proof.
  intros Hc. split; [apply expectedWater_closed |].
  set (e := expectedWater hours minutes). clearbody e.
  split; [| split].
  - intros Hearly. unfold getWaterStatus.
    replace (Qle_bool (hoursAwake hours minutes) (1 # 2)) with true; [reflexivity |].
    symmetry. apply Qle_bool_iff. rewrite hoursAwake_closed.
    apply Qle_shift_div_r; [reflexivity |].
    assert (Hx : Z.max 0 (60 * (hours - 7) + minutes) <= 30) by lia.
    revert Hx. generalize (Z.max 0 (60 * (hours - 7) + minutes)). intros x Hx.
    unfold Qle. simpl. lia.
  - intros He. unfold getWaterStatus.
    destruct (Qle_bool _ _); [reflexivity |].
    replace (e <=? current) with true; [reflexivity |].
    symmetry. apply Z.leb_le. exact He.
  - unfold getWaterStatus.
    destruct (Qle_bool _ _); [simpl; lia |].
    destruct (Z.leb_spec e current'); destruct (Z.leb_spec e current);
      destruct (Z.eqb_spec current' (e - 1));
      destruct (Z.eqb_spec current (e - 1)); simpl; lia.
Qed.

Lemma X28_expected_water_by_the_clock_witness :
  severity (getWaterStatus (hoursAwake 15 0) 5 (expectedWater 15 0))
  <= severity (getWaterStatus (hoursAwake 15 0) 3 (expectedWater 15 0)).
Proof.
  apply (X28_expected_water_by_the_clock 15 0 3 5). lia.
Defined.

End HydrationClock.

Section ChartDay.

Import JSDate JSClock.

(** X29. The dashboard reads its [today] string, a UTC date, as midnight
    UTC and then takes the local day around that instant as the chart
    day. East of Greenwich (and at UTC) this is the local day [today];
    west of it, it is the local day before. In both cases the window runs
    from local midnight to one millisecond before the next. *)
Theorem X29_chart_day_depends_on_offset (tz today : Z) :
  let chartDate := today * MS_PER_DAY in
  let dayStart := setHours tz chartDate 0 0 0 0 in
  let dayEnd := setHours tz chartDate 23 59 59 999 in
  dayEnd = dayStart + MS_PER_DAY - 1
  /\ msOfDay tz dayStart = 0
  /\ (0 <= tz < MS_PER_DAY -> localDay tz dayStart = today)
  /\ (- MS_PER_DAY <= tz < 0 -> localDay tz dayStart = today - 1).
Proof.
  intros chartDate dayStart dayEnd.
  unfold dayEnd, dayStart, chartDate, setHours, msOfDay, localDay, MS_PER_DAY.
  split; [lia |].
  split; [| split]; intros; Z.div_mod_to_equations; lia.
Qed.

Lemma X29_chart_day_depends_on_offset_witness :
  localDay (- 18000000)
    (setHours (- 18000000) (20759 * MS_PER_DAY) 0 0 0 0) = 20759 - 1.
Proof.
  apply (X29_chart_day_depends_on_offset (- 18000000) 20759).
  unfold MS_PER_DAY. lia.
Defined.

End ChartDay.

Section SeriesRenderers.

Import SleepVsDeepwork.

(** X30. For every series the analytics chart is the same after each
    missing sleep entry is replaced by a recorded zero, so it cannot show
    the difference; the plain script does show it: as soon as one row
    lacks its sleep entry, its chart data and its text table differ from
    those of the zero-filled series. *)
Theorem X30_renderers_on_missing_sleep (data : list Row) :
  renderAnalytics (List.map zeroFill data) = renderAnalytics data
  /\ ((exists row, In row data /\ sleep_minutes row = None) ->
      sleep_dataset (fst (renderSleepVsDeepwork (List.map zeroFill data)))
      <> sleep_dataset (fst (renderSleepVsDeepwork data))
      /\ snd (renderSleepVsDeepwork (List.map zeroFill data))
         <> snd (renderSleepVsDeepwork data)).
Proof.
  split; [apply renderAnalytics_zeroFill |].
  intros (row & Hin & Hnone).
  cbn [renderSleepVsDeepwork fst snd sleep_dataset].
  split.
  - intros E. rewrite List.map_map in E.
    induction data as [| r l IH]; [contradiction |].
    cbn [List.map] in E. injection E as E1 E2.
    destruct Hin as [Heq | Hin].
    + subst r. cbn [zeroFill sleep_minutes] in E1. rewrite Hnone in E1.
      discriminate.
    + exact (IH Hin E2).
  - intros E. injection E as E. rewrite List.map_map in E.
    induction data as [| r l IH]; [contradiction |].
    cbn [List.map] in E. injection E as E1 E2.
    destruct Hin as [Heq | Hin].
    + subst r. destruct row as [d sm dm]. cbn [sleep_minutes] in Hnone. subst sm.
      symmetry in E1. exact (textLine_absent_vs_zero d dm E1).
    + exact (IH Hin E2).
Qed.

Lemma X30_renderers_on_missing_sleep_witness :
  sleep_dataset (fst (renderSleepVsDeepwork (List.map zeroFill [day_sleep_absent])))
  <> sleep_dataset (fst (renderSleepVsDeepwork [day_sleep_absent])).
Proof.
  apply (X30_renderers_on_missing_sleep [day_sleep_absent]).
  exists day_sleep_absent. split; [left; reflexivity | reflexivity].
Defined.

End SeriesRenderers.
